(** * kapp-controller: status tailer, restricted kapp flags, PackageRepository hooks

    A shallow embedding of
    - [cli/pkg/kctrl/cmd/app/app-watcher.go]   (module [app]),
    - [pkg/deploy/kapp_restrict.go]            (module [deploy]),
    - the PackageRepository [CRDApp] adapter   (module [pkgrepository]),
    followed by the properties of the design document that concern them. *)

From Stdlib Require Import ZArith Ascii String List Bool Lia.
From stdpp Require Import base option list strings pretty gmap sets.

Local Open Scope string_scope.
Local Open Scope Z_scope.

(** ** Go runtime: panics and a state monad that stops at the first panic *)

Module go.

Inductive panic : Set :=
| NilPointerDereference
| IndexOutOfRange (index : Z) (length : Z)
| CloseOfNilChannel
| CloseOfClosedChannel.

Inductive Outcome (A : Type) : Type :=
| Returned (a : A)
| Panicked (p : panic).
Arguments Returned {A} a.
Arguments Panicked {A} p.

(** A computation over a mutable receiver of type [S]. State written
    before a panic stays written. *)
Definition M (S A : Type) : Type := S -> Outcome A * S.

Definition ret {S A} (a : A) : M S A := fun s => (Returned a, s).

Definition bind {S A B} (m : M S A) (k : A -> M S B) : M S B :=
  fun s =>
    match m s with
    | (Returned a, s') => k a s'
    | (Panicked p, s') => (Panicked p, s')
    end.

Definition raise {S A} (p : panic) : M S A := fun s => (Panicked p, s).

(** [*p] for a pointer that may be nil. *)
Definition deref {S A} (p : option A) : M S A :=
  match p with
  | Some a => ret a
  | None => raise NilPointerDereference
  end.

(** [if c { body }] with no else branch. *)
Definition when {S} (c : bool) (body : M S unit) : M S unit :=
  if c then body else ret tt.

(** Channels as far as [close] sees them. *)
Inductive chan : Set := ChanNil | ChanOpen | ChanClosed.

Definition close (c : chan) : Outcome chan :=
  match c with
  | ChanNil => Panicked CloseOfNilChannel
  | ChanOpen => Returned ChanClosed
  | ChanClosed => Panicked CloseOfClosedChannel
  end.

(** Go errors: a Kubernetes status error, or a [fmt.Errorf] value kept as
    its format string and operand. *)
Inductive error : Set :=
| StatusError (reason : string)
| Errorf (format : string)
| Errorf1 (format : string) (operand : error).

End go.

(** stdpp's monad notations: [x ← m; k] and [m;; k]. *)
#[global] Instance go_M_ret {S} : MRet (go.M S) := @go.ret S.
#[global] Instance go_M_bind {S} : MBind (go.M S) :=
  fun A B k m => go.bind m k.

(** ** metav1.Time *)

Module metav1.

(** An instant, in nanoseconds since the Unix epoch. *)
Definition Time : Set := Z.

Definition nanosecondsPerSecond : Z := 1000000000.

(** [t.Unix()]: whole seconds since the epoch, rounded down. *)
Definition Unix (t : Time) : Z := t / nanosecondsPerSecond.

(** [t.After(u)] *)
Definition After (t u : Time) : bool := u <? t.

(** [t.Equal(&u)] on two non-nil times. *)
Definition Equal (t u : Time) : bool := t =? u.

Definition Seconds (s : Z) : Time := s * nanosecondsPerSecond.

End metav1.

(** ** kcv1alpha1: the status read model *)

Module kcv1alpha1.

Definition AppConditionType : Set := string.

(** Modelled from the spec: the declarations of package [v1alpha1] are
    not among the sources verified here.  The condition types are the five
    the data model lists. *)
Definition Reconciling : AppConditionType := "Reconciling".
Definition ReconcileSucceeded : AppConditionType := "ReconcileSucceeded".
Definition ReconcileFailed : AppConditionType := "ReconcileFailed".
Definition Deleting : AppConditionType := "Deleting".
Definition DeleteFailed : AppConditionType := "DeleteFailed".

(** [corev1.ConditionStatus] *)
Definition ConditionStatus : Set := string.
Definition ConditionTrue : ConditionStatus := "True".

Record AppCondition : Set := {
  Type_ : AppConditionType;
  Status : ConditionStatus;
  Reason : string
}.

Record GenericStatus : Set := {
  ObservedGeneration : Z;
  Conditions : list AppCondition;
  FriendlyDescription : string
}.

(** Modelled from the spec: StageStatus =
    {ExitCode, StartedAt, UpdatedAt, Stdout, Stderr}. *)
Record StageStatus : Set := {
  ExitCode : Z;
  StartedAt : metav1.Time;
  UpdatedAt : metav1.Time;
  Stdout : string;
  Stderr : string
}.

(** Modelled from the spec: Deploy additionally carries Finished and
    Error. *)
Record DeployStatus : Set := {
  Stage :> StageStatus;
  Finished : bool;
  Error : string
}.

(** Modelled from the spec: the counters are non-negative. *)
Record AppStatus : Set := {
  Generic :> GenericStatus;
  Fetch : option StageStatus;
  Template : option StageStatus;
  Deploy : option DeployStatus;
  ConsecutiveReconcileSuccesses : nat;
  ConsecutiveReconcileFailures : nat
}.

End kcv1alpha1.

(** ** cli/pkg/kctrl/cmd/app/app-watcher.go *)

Module app.
Import kcv1alpha1.

Definition AppStage : Set := string.

(** The stage names are constants of package [app] declared outside
    [app-watcher.go]; they are taken as parameters. *)
Class AppStages : Set := {
  fetchStage : AppStage;
  templateStage : AppStage;
  deployStage : AppStage;
  reconciled : AppStage
}.

(** [github.com/cppforlife/color]: how a string is painted depends on the
    terminal, so the two painters are parameters. *)
Class Color : Set := {
  GreenString : string -> string;
  RedString : string -> string
}.

(** One call of [printLogLine] as the terminal receives it: the message,
    the block, whether the block is marked as an error, and the time the
    age is counted from.  The wall clock read by [time.Now] is left out. *)
Record LogLine : Set := {
  message : string;
  messageBlock : string;
  errorBlock : bool;
  startTime : option metav1.Time
}.

Record AppWatcher : Set := {
  Namespace : string;
  Name : string;
  Follow : bool;
  IgnoreNotExists : bool;
  ui : list LogLine;
  stopperChan : go.chan
}.

Definition NewAppWatcher (namespace name : string) (follow ignoreIfExists : bool)
    : AppWatcher :=
  {| Namespace := namespace; Name := name; Follow := follow;
     IgnoreNotExists := ignoreIfExists; ui := []; stopperChan := go.ChanNil |}.

Local Abbreviation M := (go.M AppWatcher).

Definition printLogLine (message messageBlock : string) (errorBlock : bool)
    (startTime : option metav1.Time) : M unit :=
  fun o =>
    (go.Returned tt,
     {| Namespace := Namespace o; Name := Name o; Follow := Follow o;
        IgnoreNotExists := IgnoreNotExists o;
        ui := ui o ++ [ {| message := message; messageBlock := messageBlock;
                           errorBlock := errorBlock; startTime := startTime |} ];
        stopperChan := stopperChan o |}).

Definition stopWatch : M unit :=
  fun o =>
    match go.close (stopperChan o) with
    | go.Returned c =>
        (go.Returned tt,
         {| Namespace := Namespace o; Name := Name o; Follow := Follow o;
            IgnoreNotExists := IgnoreNotExists o; ui := ui o;
            stopperChan := c |})
    | go.Panicked p => (go.Panicked p, o)
    end.

Definition hasReconciled (status : AppStatus) : bool :=
  existsb (fun condition =>
             (Type_ condition =? ReconcileSucceeded)%string
             && (Status condition =? ConditionTrue)%string)
          (Conditions status).

Section printTillCurrent.
Context `{AppStages}.

Definition Result : Set := AppStage * option go.error.

(** Lines 65-77: the Deploy block and the final return. *)
Definition printTillCurrent_Deploy (status : AppStatus) : M Result :=
  match Deploy status with
  | Some d =>
      if negb (ExitCode d =? 0)
         && (metav1.Unix (StartedAt d) <? metav1.Unix (UpdatedAt d))
      then
        printLogLine "Deploy failed" (Stderr d) true None;;
        mret (deployStage, Some (go.Errorf (Error d)))
      else if hasReconciled status then
        printLogLine "Deploy succeeded" (Stdout d) false (Some (UpdatedAt d));;
        mret (reconciled, None)
      else
        printLogLine "Deploy started" (Stdout d) false (Some (StartedAt d));;
        mret ("", None)
  | None => mret ("", None)
  end.

(** Lines 53-63: the Template block.  [status.Fetch] is read through
    the pointer without a nil check; [&&] evaluates its right operand
    only when the exit code is non-zero. *)
Definition printTillCurrent_Template (status : AppStatus) : M Result :=
  match Template status with
  | Some t =>
      failed ←
        (if negb (ExitCode t =? 0)
         then f ← go.deref (Fetch status);
              mret (metav1.Unix (StartedAt f) <? metav1.Unix (UpdatedAt t))
         else mret false);
      if failed : bool then
        printLogLine "Template failed" (Stderr t) true None;;
        mret (templateStage, Some (go.Errorf (Stderr t)))
      else
        f ← go.deref (Fetch status);
        if metav1.After (StartedAt f) (UpdatedAt t) then
          printLogLine "Template started" "" false None;;
          mret (templateStage, None)
        else
          printLogLine "Template succeeded" "" false (Some (UpdatedAt t));;
          printTillCurrent_Deploy status
  | None => printTillCurrent_Deploy status
  end.

(** Lines 40-51: the Fetch block. *)
Definition printTillCurrent (status : AppStatus) : M Result :=
  match Fetch status with
  | Some f =>
      if negb (ExitCode f =? 0)
         && (metav1.Unix (UpdatedAt f) >=? metav1.Unix (StartedAt f))
      then
        printLogLine "Fetch failed" (Stderr f) true None;;
        mret (fetchStage, Some (go.Errorf (Stderr f)))
      else if metav1.After (StartedAt f) (UpdatedAt f) then
        printLogLine "Fetch started" "" false (Some (StartedAt f));;
        mret (fetchStage, None)
      else
        printLogLine "Fetch succeeded" (Stdout f) false (Some (UpdatedAt f));;
        printTillCurrent_Template status
  | None => printTillCurrent_Template status
  end.

Definition PrintTillCurrent (status : AppStatus) : M Result :=
  printTillCurrent status.

End printTillCurrent.

(** [old == nil || !old.field.Equal(&new.field)] *)
Definition nilOrChanged {A} (field : A -> metav1.Time) (old : option A) (new : A)
    : bool :=
  match old with
  | None => true
  | Some o => negb (metav1.Equal (field o) (field new))
  end.

(** Lines 81-92. *)
Definition printUpdate_Fetch (oldStatus status : AppStatus) : M unit :=
  match Fetch status with
  | Some f =>
      go.when
        (match Fetch oldStatus with
         | None => true
         | Some o => negb (metav1.Equal (StartedAt o) (StartedAt f))
                     && (metav1.Unix (UpdatedAt f) <=? metav1.Unix (StartedAt f))
         end)
        (printLogLine "Fetch started" "" false None);;
      go.when (nilOrChanged UpdatedAt (Fetch oldStatus) f)
        (go.when
           (negb (ExitCode f =? 0)
            && (metav1.Unix (UpdatedAt f) >=? metav1.Unix (StartedAt f)))
           (t ← go.deref (Template status);
            printLogLine "Fetch failed" (Stderr t) true None;;
            stopWatch);;
         printLogLine "Fetch succeeded" (Stdout f) false None)
  | None => mret tt
  end.

(** Lines 93-101. *)
Definition printUpdate_Template (oldStatus status : AppStatus) : M unit :=
  match Template status with
  | Some t =>
      go.when (nilOrChanged UpdatedAt (Template oldStatus) t)
        (go.when (negb (ExitCode t =? 0))
           (printLogLine "Template failed" (Stderr t) true None;;
            stopWatch);;
         printLogLine "Template succeeded" "" false None)
  | None => mret tt
  end.

(** Lines 102-113. *)
Definition printUpdate_Deploy (oldStatus status : AppStatus) : M unit :=
  match Deploy status with
  | Some d =>
      go.when (nilOrChanged (fun x : DeployStatus => StartedAt x) (Deploy oldStatus) d)
        (printLogLine "Deploy started" "" false None);;
      go.when (nilOrChanged (fun x : DeployStatus => UpdatedAt x) (Deploy oldStatus) d)
        (t ← go.deref (Template status);
         go.when (negb (ExitCode t =? 0) && Finished d)
           (printLogLine "Deploy failed" (Stderr d) true None;;
            stopWatch);;
         printLogLine "Deploy progressing" (Stdout d) false None)
  | None => mret tt
  end.

Definition printUpdate (oldStatus status : AppStatus) : M unit :=
  printUpdate_Fetch oldStatus status;;
  printUpdate_Template oldStatus status;;
  printUpdate_Deploy oldStatus status;;
  go.when (hasReconciled status)
    (printLogLine "App reconciled" "" false None;;
     stopWatch).

(** [fmt.Sprintf("%d ...", n)] *)
Definition metricString (status : AppStatus) : string :=
  if negb (ConsecutiveReconcileFailures status =? 0)%nat then
    pretty (ConsecutiveReconcileFailures status) +:+ " consecutive failures"
  else if negb (ConsecutiveReconcileSuccesses status =? 0)%nat then
    pretty (ConsecutiveReconcileSuccesses status) +:+ " consecutive successes"
  else
    "0 consecutive failures | 0 consecutive successes".

Section statusString.
Context `{Color}.

(** [status.Conditions[0]] is indexed before the switch. *)
Definition statusString (status : AppStatus) : go.Outcome string :=
  match Conditions status !! 0%nat with
  | None => go.Panicked (go.IndexOutOfRange 0 (Z.of_nat (length (Conditions status))))
  | Some c =>
      go.Returned
        (if (Type_ c =? Reconciling)%string then "Reconciling"
         else if (Type_ c =? ReconcileSucceeded)%string
              then GreenString "Reconcile succeeded"
         else if (Type_ c =? ReconcileFailed)%string
              then RedString "Reconcile failed"
         else if (Type_ c =? Deleting)%string then "Deleting"
         else if (Type_ c =? DeleteFailed)%string
              then RedString "Deletion failed"
         else FriendlyDescription status)
  end.

End statusString.

End app.

(** ** pkg/exec: flag sets *)

Module exec.

(** Modelled from the spec: package [exec] is not part of the sources at
    hand.  A flag set is the union of the lists it is built from
    ("allow-list = shared-flags ∪ change-flags ∪ operation-specific-flags"). *)
Definition NewFlagSet (flagSets : list (list string)) : gset string :=
  ⋃ (list_to_set <$> flagSets).

(** Modelled from the spec: a token that starts with a dash is a flag,
    any other token is the value of the flag before it. *)
Definition isFlag (token : string) : bool := String.prefix "-" token.

(** Modelled from the spec: the flag name is "the portion before [=]". *)
Fixpoint flagName (flag : string) : string :=
  match flag with
  | EmptyString => EmptyString
  | String c rest =>
      if Ascii.eqb c "="%char then EmptyString else String c (flagName rest)
  end.

(** Modelled from the spec: "Flag-gate rejection ... error names the
    rejected flag". *)
Inductive FlagError : Set := FlagNotAllowed (name : string).

(** Modelled from the spec: the name of the first flag that is not in
    the allow-list, if there is one. *)
Fixpoint firstRejected (allowed : gset string) (flags : list string) : option string :=
  match flags with
  | [] => None
  | token :: rest =>
      if isFlag token && negb (bool_decide (flagName token ∈ allowed))
      then Some (flagName token)
      else firstRejected allowed rest
  end.

(** Modelled from the spec: "any flag not present in the allow-list causes
    the entire invocation to be rejected with a descriptive error naming
    the offending flag - no partial sanitization, no silent dropping". *)
Definition Validate (allowed : gset string) (flags : list string)
    : FlagError + list string :=
  match firstRejected allowed flags with
  | Some name => inl (FlagNotAllowed name)
  | None => inr flags
  end.

End exec.

(** ** pkg/deploy/kapp_restrict.go *)

Module deploy.

Definition kappAllowedSharedOpts : list string := [
  (* Globals *)
  "--column";
  "--debug";
  "--json";
  "--tty";

  "--dangerous-ignore-failing-api-services";
  "--dangerous-scope-to-fallback-allowed-namespaces";

  (* Filtering *)
  "--filter";
  "--filter-age";
  "--filter-kind";
  "--filter-kind-name";
  "--filter-kind-ns";
  "--filter-kind-ns-name";
  "--filter-name";
  "--filter-ns";

  "--kube-api-qps";
  "--kube-api-burst"
].

Definition kappAllowedChangeOpts : list string := [
  (* Diffing *)
  "--diff-changes";
  "--diff-against-last-applied";
  "--diff-context";
  "--diff-line-numbers";
  "--diff-mask";
  "--diff-run";
  "--diff-summary";

  (* Applying *)
  "--apply-check-interval";
  "--apply-concurrency";
  "--apply-default-update-strategy";
  "--apply-ignored";
  "--apply-timeout";

  (* Waiting *)
  "--wait";
  "--wait-check-interval";
  "--wait-concurrency";
  "--wait-ignored";
  "--wait-timeout"
].

Definition kappAllowedDeployFlagSet : gset string :=
  exec.NewFlagSet [kappAllowedSharedOpts; kappAllowedChangeOpts; [
    "--dangerous-allow-empty-list-of-resources";
    "--dangerous-override-ownership-of-existing-resources";

    "--into-ns";
    "--map-ns";

    "--logs";
    "--logs-all";

    "--app-changes-max-to-keep";

    "--labels";
    "--patch"
  ]].

Definition kappAllowedInspectFlagSet : gset string :=
  exec.NewFlagSet [kappAllowedSharedOpts; [
    "--raw";
    "--status";
    "--tree"
  ]].

Definition kappAllowedDeleteFlagSet : gset string :=
  exec.NewFlagSet [kappAllowedSharedOpts; kappAllowedChangeOpts].

(** The operations of the gate. *)
Inductive Operation : Set := Deploy | Inspect | Delete.

Definition allowList (operation : Operation) : gset string :=
  match operation with
  | Deploy => kappAllowedDeployFlagSet
  | Inspect => kappAllowedInspectFlagSet
  | Delete => kappAllowedDeleteFlagSet
  end.

(** Modelled from the spec: [BuildInvocation(operation, userSuppliedFlags)
    -> (sanitizedArgs, error)], the gate in front of the kapp invocation;
    the function that consults the three flag sets is not among the
    sources verified here. *)
Definition BuildInvocation (operation : Operation) (userSuppliedFlags : list string)
    : exec.FlagError + list string :=
  exec.Validate (allowList operation) userSuppliedFlags.

End deploy.

(** ** pkgingv1alpha1: the PackageRepository resource *)

Module pkgingv1alpha1.

Record PackageRepositoryStatus : Set := {
  Fetch : option kcv1alpha1.StageStatus;
  Template : option kcv1alpha1.StageStatus;
  Deploy : option kcv1alpha1.DeployStatus;
  GenericStatus : kcv1alpha1.GenericStatus;
  ConsecutiveReconcileSuccesses : nat;
  ConsecutiveReconcileFailures : nat
}.

Record ObjectMeta : Set := {
  Namespace : string;
  Name : string;
  Finalizers : list string
}.

Record PackageRepository : Set := {
  Meta :> ObjectMeta;
  Status : PackageRepositoryStatus
}.

Definition withFinalizers (repo : PackageRepository) (finalizers : list string)
    : PackageRepository :=
  {| Meta := {| Namespace := Namespace repo; Name := Name repo;
                Finalizers := finalizers |};
     Status := Status repo |}.

Definition withStatus (repo : PackageRepository) (status : PackageRepositoryStatus)
    : PackageRepository :=
  {| Meta := Meta repo; Status := status |}.

End pkgingv1alpha1.

(** ** kcclient: the typed client of the PackageRepository resource *)

Module kcclient.
Import pkgingv1alpha1.

(** [PackagingV1alpha1().PackageRepositories(namespace)] with the three
    calls the adapter makes.  A call answers with the object or with an
    error and leaves the client (and the store behind it) in a new
    state. *)
Class Interface (C : Type) : Type := {
  Get : string -> string -> C -> (go.error + PackageRepository) * C;
  Update : string -> PackageRepository -> C -> (go.error + PackageRepository) * C;
  UpdateStatus : string -> PackageRepository -> C -> (go.error + PackageRepository) * C
}.

End kcclient.

(** ** The PackageRepository adapter (package pkgrepository) *)

Module pkgrepository.
Import pkgingv1alpha1.

(** The two finalizer names are constants of the package declared in
    another file; they are taken as parameters. *)
Class FinalizerNames : Set := {
  deleteFinalizerName : string;
  deletePrevFinalizerName : string
}.

(** Modelled from the spec: [containsString] is a helper of the package
    that is not among the sources verified here ("if the finalizer is already
    present"). *)
Definition containsString (slice : list string) (s : string) : bool :=
  existsb (fun item => (item =? s)%string) slice.

(** Modelled from the spec: [removeString] is a helper of the package
    that is not among the sources verified here; it drops every entry equal
    to [s] and keeps the others in order. *)
Definition removeString (slice : list string) (s : string) : list string :=
  List.filter (fun item => negb (item =? s)%string) slice.

Section CRDApp.
Context {C : Type} `{!kcclient.Interface C} `{!FinalizerNames}.

(** [app] stands for what [a.app.Status()] returns; [log] collects the
    messages given to [a.log.Info]. *)
Record CRDApp : Type := {
  app : kcv1alpha1.AppStatus;
  pkgrModel : PackageRepository;
  log : list (string * list string);
  appClient : C
}.

Definition log_Info (msg : string) (keysAndValues : list string) (a : CRDApp)
    : CRDApp :=
  {| app := app a; pkgrModel := pkgrModel a;
     log := log a ++ [(msg, keysAndValues)]; appClient := appClient a |}.

Definition withClient (a : CRDApp) (c : C) : CRDApp :=
  {| app := app a; pkgrModel := pkgrModel a; log := log a; appClient := c |}.

Definition updatePackageRepository
    (updateFunc : PackageRepository -> PackageRepository) (a : CRDApp)
    : option go.error * CRDApp :=
  let a := log_Info "Updating PackageRepository" [] a in
  match kcclient.Get (Namespace (pkgrModel a)) (Name (pkgrModel a)) (appClient a) with
  | (inl err, c) =>
      (Some (go.Errorf1 "Updating PackageRepository: %s" err), withClient a c)
  | (inr existingRepo, c) =>
      let existingRepo := updateFunc existingRepo in
      match kcclient.Update (Namespace existingRepo) existingRepo c with
      | (inl err, c) =>
          (Some (go.Errorf1 "Updating PackageRepository: %s" err), withClient a c)
      | (inr _, c) => (None, withClient a c)
      end
  end.

Definition blockDeletion (a : CRDApp) : option go.error * CRDApp :=
  (* Avoid doing unnecessary processing *)
  if containsString (Finalizers (pkgrModel a)) deleteFinalizerName then
    (None, a)
  else
    let a := log_Info "Blocking deletion" [] a in
    updatePackageRepository
      (fun app =>
         if negb (containsString (Finalizers app) deleteFinalizerName)
         then withFinalizers app (Finalizers app ++ [deleteFinalizerName])
         else app)
      a.

Definition unblockDeletion (a : CRDApp) : option go.error * CRDApp :=
  let a := log_Info "Unblocking deletion" [] a in
  updatePackageRepository
    (fun app =>
       let app := withFinalizers app (removeString (Finalizers app) deleteFinalizerName) in
       (* Need to remove old finalizer that might have been added by
          previous versions of kapp-controller *)
       withFinalizers app (removeString (Finalizers app) deletePrevFinalizerName))
    a.

Definition updateStatusOnce (a : CRDApp) : option go.error * CRDApp :=
  match kcclient.Get (Namespace (pkgrModel a)) (Name (pkgrModel a)) (appClient a) with
  | (inl err, c) =>
      (Some (go.Errorf1 "Fetching PackageRepository: %s" err), withClient a c)
  | (inr existingRepo, c) =>
      let existingRepo :=
        withStatus existingRepo
          {| Fetch := kcv1alpha1.Fetch (app a);
             Template := kcv1alpha1.Template (app a);
             Deploy := kcv1alpha1.Deploy (app a);
             GenericStatus := kcv1alpha1.Generic (app a);
             ConsecutiveReconcileSuccesses :=
               kcv1alpha1.ConsecutiveReconcileSuccesses (app a);
             ConsecutiveReconcileFailures :=
               kcv1alpha1.ConsecutiveReconcileFailures (app a) |} in
      match kcclient.UpdateStatus (Namespace existingRepo) existingRepo c with
      | (inl err, c) => (Some err, withClient a c)
      | (inr _, c) => (None, withClient a c)
      end
  end.

(** [for i := 0; i < 5; i++]: [remaining] is [5 - i]. *)
Fixpoint updateStatus_loop (remaining : nat) (lastErr : option go.error) (a : CRDApp)
    : option go.error * CRDApp :=
  match remaining with
  | O => (lastErr, a)
  | S remaining =>
      let '(lastErr, a) := updateStatusOnce a in
      match lastErr with
      | None => (None, a)
      | Some _ => updateStatus_loop remaining lastErr a
      end
  end.

Definition updateStatus (desc : string) (a : CRDApp) : option go.error * CRDApp :=
  let a := log_Info "Updating status" ["desc"; desc] a in
  updateStatus_loop 5 None a.

(** The adapter after [n] consecutive calls of [updateStatusOnce], made
    whatever they answered, and the answer of the call after them. *)
Definition afterAttempts (n : nat) (a : CRDApp) : CRDApp :=
  Nat.iter n (fun a => snd (updateStatusOnce a)) a.

Definition attempt (n : nat) (a : CRDApp) : option go.error :=
  fst (updateStatusOnce (afterAttempts n a)).

End CRDApp.

Arguments CRDApp C : clear implicits.

End pkgrepository.

(** ** The in-memory clientset *)

Module fake.
Import pkgingv1alpha1.

Inductive Action : Set :=
| GetAction (namespace name : string)
| UpdateAction (namespace : string) (object : PackageRepository)
| UpdateStatusAction (namespace : string) (object : PackageRepository).

Definition isWrite (action : Action) : bool :=
  match action with
  | GetAction _ _ => false
  | UpdateAction _ _ | UpdateStatusAction _ _ => true
  end.

(** Modelled from the spec: the store behind the client, which is not
    among the sources verified here.  [tracker] holds the persisted
    resources by namespace and name, [reactions] is a script of
    simulated answers, one per call ([Some err] makes the call fail with
    [err], for instance a conflict; [None] lets it through), and
    [actions] records every call made. *)
Record Clientset : Type := {
  tracker : gmap (string * string) PackageRepository;
  reactions : list (option go.error);
  actions : list Action
}.

Definition NotFound : go.error := go.StatusError "NotFound".
Definition Conflict : go.error := go.StatusError "Conflict".

Definition Invokes (action : Action)
    (handle : gmap (string * string) PackageRepository ->
              (go.error + PackageRepository) * gmap (string * string) PackageRepository)
    (c : Clientset) : (go.error + PackageRepository) * Clientset :=
  let recorded := (actions c ++ [action])%list in
  match reactions c with
  | Some err :: rest =>
      (inl err, {| tracker := tracker c; reactions := rest; actions := recorded |})
  | script =>
      let '(answer, objects) := handle (tracker c) in
      (answer, {| tracker := objects; reactions := tail script; actions := recorded |})
  end.

Definition get (namespace name : string) : Clientset -> _ :=
  Invokes (GetAction namespace name)
    (fun objects =>
       match objects !! (namespace, name) with
       | Some object => (inr object, objects)
       | None => (inl NotFound, objects)
       end).

Definition replace (namespace : string) (object : PackageRepository)
    (objects : gmap (string * string) PackageRepository) :=
  match objects !! (namespace, Name object) with
  | Some _ => (inr object, <[(namespace, Name object) := object]> objects)
  | None => (inl NotFound, objects)
  end.

Definition update (namespace : string) (object : PackageRepository)
    : Clientset -> _ :=
  Invokes (UpdateAction namespace object) (replace namespace object).

Definition updateStatus (namespace : string) (object : PackageRepository)
    : Clientset -> _ :=
  Invokes (UpdateStatusAction namespace object) (replace namespace object).

#[global] Instance clientset : kcclient.Interface Clientset :=
  {| kcclient.Get := get; kcclient.Update := update;
     kcclient.UpdateStatus := updateStatus |}.

End fake.

(** ** The reconcile engine, as far as the streak counters go *)

Module engine.
Import kcv1alpha1.

Inductive Outcome : Set := Succeeded | Failed.

Definition withCounters (status : AppStatus) (successes failures : nat) : AppStatus :=
  {| Generic := Generic status; Fetch := Fetch status; Template := Template status;
     Deploy := Deploy status;
     ConsecutiveReconcileSuccesses := successes;
     ConsecutiveReconcileFailures := failures |}.

(** Modelled from the spec: the engine is not part of the sources at
    hand.  "On terminal success of a full reconcile, increments
    ConsecutiveReconcileSuccesses and zeroes ConsecutiveReconcileFailures;
    symmetric on terminal failure." *)
Definition setReconcileCompleted (outcome : Outcome) (status : AppStatus) : AppStatus :=
  match outcome with
  | Succeeded => withCounters status (S (ConsecutiveReconcileSuccesses status)) 0
  | Failed => withCounters status 0 (S (ConsecutiveReconcileFailures status))
  end.

(** The status of a resource that has not completed a reconcile yet. *)
Definition newStatus : AppStatus :=
  {| Generic := {| ObservedGeneration := 0; Conditions := [];
                   FriendlyDescription := "" |};
     Fetch := None; Template := None; Deploy := None;
     ConsecutiveReconcileSuccesses := 0; ConsecutiveReconcileFailures := 0 |}.

(** The status after the given terminal outcomes, oldest first. *)
Definition statusAfter (outcomes : list Outcome) : AppStatus :=
  fold_left (fun status outcome => setReconcileCompleted outcome status)
            outcomes newStatus.

End engine.

(** * Observations and concrete inputs used in the statements *)

Module watch.
Import kcv1alpha1 app.

Definition newWatcher : AppWatcher := NewAppWatcher "" "" false false.

(** A watcher whose [stopperChan] has been made, as [TailAppStatus] does
    before it registers the update handler. *)
Definition tailing : AppWatcher :=
  {| Namespace := ""; Name := ""; Follow := false; IgnoreNotExists := false;
     ui := []; stopperChan := go.ChanOpen |}.

(** What a run prints on a terminal that was empty before it. *)
Definition output {A} (run : go.M AppWatcher A) : list LogLine :=
  ui (snd (run tailing)).

Definition reports {A} (msg : string) (run : go.M AppWatcher A) : bool :=
  existsb (fun line => (message line =? msg)%string) (output run).

(** The run prints one of the three lines of the stage. *)
Definition examined {A} (stage : string) (run : go.M AppWatcher A) : bool :=
  reports (stage +:+ " failed") run
  || reports (stage +:+ " started") run
  || reports (stage +:+ " succeeded") run.

(** The failure test of the data model: a non-zero exit code and an
    [UpdatedAt] that is not earlier than [StartedAt], both compared in
    whole seconds as the code does. *)
Definition failedBy (exitCode : Z) (startedAt updatedAt : metav1.Time) : Prop :=
  exitCode ≠ 0 ∧ metav1.Unix (startedAt) ≤ metav1.Unix (updatedAt).

(** Any four distinct names do for the concrete runs: the lines printed
    do not depend on them. *)
Definition stages : AppStages :=
  {| fetchStage := "fetch"; templateStage := "template";
     deployStage := "deploy"; reconciled := "reconciled" |}.

(** The painters of a terminal without colours. *)
Definition noColor : Color :=
  {| GreenString := fun s => s; RedString := fun s => s |}.

Definition stage (exitCode startedAt updatedAt : Z) (stdout stderr : string)
    : StageStatus :=
  {| ExitCode := exitCode; StartedAt := metav1.Seconds startedAt;
     UpdatedAt := metav1.Seconds updatedAt; Stdout := stdout; Stderr := stderr |}.

Definition status (fetch template : option StageStatus) (deploy : option DeployStatus)
    (conditions : list AppCondition) : AppStatus :=
  {| Generic := {| ObservedGeneration := 1; Conditions := conditions;
                   FriendlyDescription := "" |};
     Fetch := fetch; Template := template; Deploy := deploy;
     ConsecutiveReconcileSuccesses := 0; ConsecutiveReconcileFailures := 0 |}.

(** A deploy that failed within the second it started in. *)
Definition deployFailedAtOnce : DeployStatus :=
  {| Stage := stage 1 100 100 "" "kapp: Error: timed out";
     Finished := true; Error := "Deploying: exit status 1" |}.

End watch.

(** Concrete statuses for the tailer. *)
Module scenario.
Import kcv1alpha1 app watch.

Definition condition (type : AppConditionType) : AppCondition :=
  {| Type_ := type; Status := ConditionTrue; Reason := "" |}.

(** Only a failed deploy is recorded, and it failed at once. *)
Definition deployOnly : AppStatus :=
  status None None (Some deployFailedAtOnce) [condition ReconcileFailed].

(** The same exit code and times, recorded for Fetch. *)
Definition fetchOnly : AppStatus :=
  status (Some (Stage deployFailedAtOnce)) None None [condition ReconcileFailed].

(** A template failure recorded at second 150 for a template that
    started at second 140. *)
Definition templateFailure : StageStatus :=
  stage 1 140 150 "" "ytt: Error: Checking file".

(** Fetch ran before that template (seconds 100 to 110). *)
Definition fetchedBefore : AppStatus :=
  status (Some (stage 0 100 110 "fetched" "")) (Some templateFailure) None
         [condition Reconciling].


Definition unset : AppStatus := status None None None [].

(** Fetch has just failed; Template still holds the output of an
    earlier run. *)
Definition fetchFailure : StageStatus :=
  stage 1 100 105 "" "vendir: Error: Syncing directory".

Definition fetchJustFailed : AppStatus :=
  status (Some fetchFailure) (Some (stage 0 90 95 "" "ytt: warning from the last run"))
         None [condition ReconcileFailed].

(** The same, on a resource that has never been templated. *)
Definition fetchJustFailedFirstRun : AppStatus :=
  status (Some fetchFailure) None None [condition ReconcileFailed].

End scenario.

(** Concrete stores for the PackageRepository adapter. *)
Module cluster.
Import pkgingv1alpha1 pkgrepository.

(** The resource is stored under its own namespace and name, where the
    adapter looks for it, and no answer is simulated. *)
Definition stored (a : CRDApp fake.Clientset) (repo : PackageRepository) : Prop :=
  fake.tracker (appClient a) !! (Namespace (pkgrModel a), Name (pkgrModel a)) = Some repo
  /\ Namespace repo = Namespace (pkgrModel a)
  /\ Name repo = Name (pkgrModel a)
  /\ fake.reactions (appClient a) = [].

(** The two names, the current one and the one of earlier releases. *)
Definition finalizers : FinalizerNames :=
  {| deleteFinalizerName := "finalizers.packagerepository.packaging.carvel.dev/delete";
     deletePrevFinalizerName := "finalizers.kapp-ctrl.k14s.io/delete" |}.

Definition emptyStatus : PackageRepositoryStatus :=
  {| Fetch := None; Template := None; Deploy := None;
     GenericStatus := kcv1alpha1.Generic engine.newStatus;
     ConsecutiveReconcileSuccesses := 0; ConsecutiveReconcileFailures := 0 |}.

Definition repository (finalizerList : list string) : PackageRepository :=
  {| Meta := {| Namespace := "carvel"; Name := "tanzu-core";
                Finalizers := finalizerList |};
     Status := emptyStatus |}.

(** A store that holds the repository, with a script of simulated
    answers. *)
Definition store (finalizerList : list string) (script : list (option go.error))
    : fake.Clientset :=
  {| fake.tracker := {[ ("carvel", "tanzu-core") := repository finalizerList ]};
     fake.reactions := script;
     fake.actions := [] |}.

(** An adapter built from the stored repository. *)
Definition adapter (finalizerList : list string) (script : list (option go.error))
    : CRDApp fake.Clientset :=
  {| app := engine.statusAfter [engine.Succeeded];
     pkgrModel := repository finalizerList;
     log := [];
     appClient := store finalizerList script |}.

(** [n] rounds in which the read goes through and the status write is
    answered with a conflict. *)
Definition conflicts (n : nat) : list (option go.error) :=
  concat (List.repeat [None; Some fake.Conflict] n).

(** The finalizer list the store holds for the repository. *)
Definition storedFinalizers (a : CRDApp fake.Clientset) : option (list string) :=
  (fun repo : PackageRepository => Finalizers repo)
    <$> fake.tracker (appClient a) !! ("carvel", "tanzu-core").

Definition writes (a : CRDApp fake.Clientset) : nat :=
  length (List.filter fake.isWrite (fake.actions (appClient a))).

End cluster.

(** Finalizer lists for the concrete runs. *)
Module lists.
Import pkgrepository.

Definition current : string := @deleteFinalizerName cluster.finalizers.
Definition previous : string := @deletePrevFinalizerName cluster.finalizers.

(** The current name twice. *)
Definition duplicated : list string := [current; current].

(** Both names between entries of other controllers. *)
Definition mixed : list string :=
  [current; "kubernetes.io/pv-protection"; previous; current; "example.com/cleanup"].

Definition foreign : list string := ["kubernetes.io/pv-protection"].

End lists.

(** An adapter whose copy of the resource is out of date. *)
Module outdated.
Import pkgingv1alpha1 pkgrepository cluster.

(** The adapter's copy lists [copied], the store holds [kept]. *)
Definition adapter (copied kept : list string) : CRDApp fake.Clientset :=
  {| app := engine.statusAfter [engine.Succeeded];
     pkgrModel := repository copied;
     log := [];
     appClient := store kept [] |}.

End outdated.

(** * Further observations of the tailer *)

Module lines.
Import kcv1alpha1 app.

(** The watcher after it has printed [printed] more lines. *)
Definition say (o : AppWatcher) (printed : list LogLine) : AppWatcher :=
  {| Namespace := Namespace o; Name := Name o; Follow := Follow o;
     IgnoreNotExists := IgnoreNotExists o; ui := ui o ++ printed;
     stopperChan := stopperChan o |}.

Definition withChan (o : AppWatcher) (c : go.chan) : AppWatcher :=
  {| Namespace := Namespace o; Name := Name o; Follow := Follow o;
     IgnoreNotExists := IgnoreNotExists o; ui := ui o; stopperChan := c |}.

Definition isFailure (line : LogLine) : bool :=
  (message line =? "Fetch failed")%string
  || (message line =? "Template failed")%string
  || (message line =? "Deploy failed")%string.

(** The lines after which [printUpdate] stops the watch. *)
Definition isStop (line : LogLine) : bool :=
  isFailure line || (message line =? "App reconciled")%string.

(** Every line with message [msg] is directly followed by a line with
    message [next]. *)
Fixpoint followedBy (msg next : string) (printed : list LogLine) : bool :=
  match printed with
  | [] => true
  | line :: rest =>
      (if (message line =? msg)%string
       then match rest with
            | following :: _ => (message following =? next)%string
            | [] => false
            end
       else true)
      && followedBy msg next rest
  end.

(** Each stage the new status carries was there before, with the same
    two times. *)
Definition sameTimes {A} (startedAt updatedAt : A -> metav1.Time)
    (old new : option A) : Prop :=
  match new with
  | None => True
  | Some n =>
      match old with
      | Some o => startedAt o = startedAt n /\ updatedAt o = updatedAt n
      | None => False
      end
  end.

Definition unchanged (oldStatus status : AppStatus) : Prop :=
  sameTimes StartedAt UpdatedAt (Fetch oldStatus) (Fetch status)
  /\ sameTimes StartedAt UpdatedAt (Template oldStatus) (Template status)
  /\ sameTimes (fun d : DeployStatus => StartedAt d) (fun d : DeployStatus => UpdatedAt d)
               (Deploy oldStatus) (Deploy status).

End lines.

(** What each function reads of a status. *)
Module reads.
Import kcv1alpha1 app.

(** The fields of a status [printTillCurrent] reads. *)
Definition ofPrintTillCurrent (status : AppStatus) :=
  (Fetch status,
   (fun t => (ExitCode t, UpdatedAt t, Stderr t)) <$> Template status,
   Deploy status,
   Conditions status).

(** The fields of the new status [printUpdate] reads. *)
Definition ofPrintUpdate (status : AppStatus) :=
  ((fun f => (ExitCode f, StartedAt f, UpdatedAt f, Stdout f)) <$> Fetch status,
   (fun t => (ExitCode t, UpdatedAt t, Stderr t)) <$> Template status,
   (fun d : DeployStatus => (StartedAt d, UpdatedAt d, Finished d, Stdout d, Stderr d))
     <$> Deploy status,
   Conditions status).

(** The fields of the old status [printUpdate] reads. *)
Definition ofPrintUpdateOld (oldStatus : AppStatus) :=
  ((fun f => (StartedAt f, UpdatedAt f)) <$> Fetch oldStatus,
   UpdatedAt <$> Template oldStatus,
   (fun d : DeployStatus => (StartedAt d, UpdatedAt d)) <$> Deploy oldStatus).

End reads.

(** More concrete statuses. *)
Module scenario2.
Import kcv1alpha1 app watch scenario.

(** All three stages ran and the resource is reconciled. *)
Definition deployed : AppStatus :=
  status (Some (stage 0 100 110 "fetched" ""))
         (Some (stage 0 110 111 "" ""))
         (Some {| Stage := stage 0 111 130 "Succeeded" ""; Finished := true;
                  Error := "" |})
         [condition ReconcileSucceeded].

(** Only a Template stage is recorded. *)
Definition templateOnly : AppStatus :=
  status None (Some templateFailure) None [condition Reconciling].

(** [fetchedBefore] with another start time and standard output of the
    Template stage, another description and other counters. *)
Definition fetchedBefore' : AppStatus :=
  {| Generic := {| ObservedGeneration := 7; Conditions := [condition Reconciling];
                   FriendlyDescription := "Reconciling" |};
     Fetch := Some (stage 0 100 110 "fetched" "");
     Template := Some (stage 1 0 150 "rendered" "ytt: Error: Checking file");
     Deploy := None;
     ConsecutiveReconcileSuccesses := 3; ConsecutiveReconcileFailures := 0 |}.

(** [fetchJustFailed] with another standard error of Fetch. *)
Definition fetchJustFailed' : AppStatus :=
  status (Some (stage 1 100 105 "" "imgpkg: Error: Fetching image"))
         (Some (stage 0 90 95 "" "ytt: warning from the last run"))
         None [condition ReconcileFailed].

End scenario2.

(** * Further observations of the PackageRepository adapter *)

Module persisted.
Import pkgingv1alpha1 pkgrepository.

(** Where the adapter looks for its resource. *)
Definition key {C} (a : CRDApp C) : string * string :=
  (Namespace (pkgrModel a), Name (pkgrModel a)).

(** What a hook may change of the adapter: the client and the log, the
    log only at its end. *)
Definition keepsModel {C} (a a' : CRDApp C) : Prop :=
  pkgrModel a' = pkgrModel a /\ app a' = app a
  /\ exists entries, log a' = (log a ++ entries)%list.

(** The store keeps [repo] under the namespace and the name that [repo]
    itself carries, and that is where the adapter looks for it; the
    script of simulated answers is arbitrary. *)
Definition holds (a : CRDApp fake.Clientset) (repo : PackageRepository) : Prop :=
  fake.tracker (appClient a) !! key a = Some repo
  /\ Namespace repo = Namespace (pkgrModel a)
  /\ Name repo = Name (pkgrModel a).

(** The store has nothing under the adapter's key. *)
Definition missing (a : CRDApp fake.Clientset) : Prop :=
  fake.tracker (appClient a) !! key a = None.

(** The status [updateStatusOnce] writes: the six fields of the
    engine's status. *)
Definition statusOf (status : kcv1alpha1.AppStatus) : PackageRepositoryStatus :=
  {| Fetch := kcv1alpha1.Fetch status;
     Template := kcv1alpha1.Template status;
     Deploy := kcv1alpha1.Deploy status;
     GenericStatus := kcv1alpha1.Generic status;
     ConsecutiveReconcileSuccesses := kcv1alpha1.ConsecutiveReconcileSuccesses status;
     ConsecutiveReconcileFailures := kcv1alpha1.ConsecutiveReconcileFailures status |}.

(** A finalizer list without the two names of the adapter. *)
Definition withoutBoth `{!FinalizerNames} (finalizerList : list string) : list string :=
  List.filter (fun item => negb (item =? deleteFinalizerName)%string
                           && negb (item =? deletePrevFinalizerName)%string)
              finalizerList.

(** The calls made between two states of the client. *)
Definition callsSince (before after : fake.Clientset) : list fake.Action :=
  drop (length (fake.actions before)) (fake.actions after).

Definition isGet (action : fake.Action) : bool :=
  match action with fake.GetAction _ _ => true | _ => false end.

Definition isUpdate (action : fake.Action) : bool :=
  match action with fake.UpdateAction _ _ => true | _ => false end.

Definition isUpdateStatus (action : fake.Action) : bool :=
  match action with fake.UpdateStatusAction _ _ => true | _ => false end.

End persisted.

(** More concrete stores. *)
Module cluster2.
Import pkgingv1alpha1 pkgrepository cluster.

(** An adapter for a resource that the store does not hold. *)
Definition orphan : CRDApp fake.Clientset :=
  {| app := engine.statusAfter [engine.Succeeded];
     pkgrModel := repository lists.foreign;
     log := [];
     appClient := {| fake.tracker := ∅; fake.reactions := []; fake.actions := [] |} |}.

(** A store that holds a second repository next to the adapter's. *)
Definition neighbour : PackageRepository :=
  {| Meta := {| Namespace := "carvel"; Name := "tanzu-extras";
                Finalizers := [lists.current] |};
     Status := emptyStatus |}.

Definition shared (script : list (option go.error)) : CRDApp fake.Clientset :=
  {| app := engine.statusAfter [engine.Succeeded];
     pkgrModel := repository lists.foreign;
     log := [];
     appClient :=
       {| fake.tracker := {[ ("carvel", "tanzu-core") := repository lists.foreign;
                             ("carvel", "tanzu-extras") := neighbour ]};
          fake.reactions := script;
          fake.actions := [] |} |}.

End cluster2.

(** * Package strings, as far as [indentMessageBlock] uses it *)

Module gostrings.

Definition newline : ascii := "010"%char.
Definition tab : ascii := "009"%char.

(** [len(s)] *)
Definition len (s : string) : Z := Z.of_nat (String.length s).

(** [strings.Split(s, sep)] for a separator of one byte: the pieces
    between the separators, a single piece when there is none. *)
Fixpoint Split (s : string) (sep : ascii) : list string :=
  match s with
  | EmptyString => [EmptyString]
  | String c rest =>
      if Ascii.eqb c sep then EmptyString :: Split rest sep
      else match Split rest sep with
           | piece :: pieces => String c piece :: pieces
           | [] => [String c EmptyString]
           end
  end.

(** [strings.Join(elems, sep)] *)
Fixpoint Join (elems : list string) (sep : string) : string :=
  match elems with
  | [] => EmptyString
  | [elem] => elem
  | elem :: rest => elem +:+ sep +:+ Join rest sep
  end.

(** [strings.LastIndex(s, sep)] for a separator of one byte: the index
    of its last occurrence, or -1. *)
Fixpoint LastIndex (s : string) (sep : ascii) : Z :=
  match s with
  | EmptyString => -1
  | String c rest =>
      let inRest := LastIndex rest sep in
      if 0 <=? inRest then inRest + 1
      else if Ascii.eqb c sep then 0 else -1
  end.

(** The last byte of a string. *)
Fixpoint last (s : string) : option ascii :=
  match s with
  | EmptyString => None
  | String c EmptyString => Some c
  | String _ rest => last rest
  end.

End gostrings.

(** ** [indentMessageBlock] (app-watcher.go, lines 236-250) *)

Module blocks.
Import app gostrings.

(** [fmt.Sprintf("\t  | %s", line)] *)
Definition margin : string := String tab "  | ".

Section indentMessageBlock.
Context `{Color}.

(** The loop paints and indents the lines in place, one index after
    the other. *)
Definition indentMessageBlock (messageBlock : string) (errored : bool) : string :=
  let lines := Split messageBlock newline in
  let lines :=
    List.map (fun line =>
                let line := if errored then RedString line else line in
                margin +:+ line)
             lines in
  let indentedBlock := Join lines (String newline EmptyString) in
  if negb (LastIndex indentedBlock newline =? len indentedBlock - 1)
  then indentedBlock +:+ String newline EmptyString
  else indentedBlock.

End indentMessageBlock.

(** Each line behind the margin and closed by a newline. *)
Definition indented (pieces : list string) : string :=
  fold_right (fun piece rest => margin +:+ piece +:+ String newline rest)
             EmptyString pieces.

End blocks.

(** * Properties *)

(** ** Reading a run of the tailer *)

Ltac run_step :=
  cbv beta iota zeta delta
    [mbind mret go_M_bind go_M_ret go.bind go.ret go.deref go.raise go.when
     app.printLogLine app.stopWatch go.close snd fst
     app.ui app.stopperChan app.Namespace app.Name app.Follow
     app.IgnoreNotExists].

Ltac run_case :=
  match goal with
  | |- context [match ?o with Some _ => _ | None => _ end] => destruct o eqn:?
  | |- context [if ?c then _ else _] => destruct c eqn:?
  end.

Ltac run_all := repeat (run_step; run_case); run_step.

Ltac reflect_tests :=
  unfold metav1.After, metav1.Equal, watch.failedBy in *;
  rewrite ?Z.geb_leb in *;
  rewrite ?andb_true_iff, ?andb_false_iff, ?negb_true_iff, ?negb_false_iff,
    ?Z.eqb_eq, ?Z.eqb_neq, ?Z.ltb_lt, ?Z.ltb_ge, ?Z.leb_le, ?Z.leb_gt in *.

Ltac unfold_tailer :=
  unfold watch.examined, watch.reports, watch.output, watch.tailing,
    app.PrintTillCurrent, app.printTillCurrent, app.printTillCurrent_Template,
    app.printTillCurrent_Deploy.

Section printTillCurrent_facts.
Import kcv1alpha1 app watch.
Context `{!AppStages}.


(** A stale Fetch failure (updated in an earlier second than the stage
    started in) is printed as a Fetch that has started. *)
Lemma stale_fetch_failure_is_started (status : AppStatus) (f : StageStatus) (o : AppWatcher) :
  Fetch status = Some f ->
  metav1.Unix (UpdatedAt f) < metav1.Unix (StartedAt f) ->
  output (printTillCurrent status)
  = [ {| message := "Fetch started"; messageBlock := ""; errorBlock := false;
         startTime := Some (StartedAt f) |} ]
  /\ fst (printTillCurrent status o) = go.Returned (fetchStage, None).
Proof.
  intros Hf Hstale. unfold_tailer. rewrite Hf.
  assert (UpdatedAt f < StartedAt f) as Hlt.
  { unfold metav1.Unix, metav1.nanosecondsPerSecond in Hstale.
    destruct (Z.lt_ge_cases (UpdatedAt f) (StartedAt f)) as [|Hge]; [done|].
    apply (Z.div_le_mono _ _ 1000000000) in Hge; lia. }
  assert (negb (ExitCode f =? 0)
          && (metav1.Unix (UpdatedAt f) >=? metav1.Unix (StartedAt f)) = false) as ->.
  { reflect_tests. right. lia. }
  assert (metav1.After (StartedAt f) (UpdatedAt f) = true) as ->.
  { reflect_tests. lia. }
  split; reflexivity.
Qed.


(** With a Template status and no Fetch status the Template block reads
    through the nil pointer. *)
Lemma template_without_fetch_panics (status : AppStatus) (t : StageStatus)
    (o : AppWatcher) :
  Fetch status = None -> Template status = Some t ->
  printTillCurrent status o = (go.Panicked go.NilPointerDereference, o).
Proof.
  intros Hf Ht. unfold printTillCurrent, printTillCurrent_Template.
  rewrite Hf, Ht. run_all; reflexivity.
Qed.

End printTillCurrent_facts.

(** ** Stage-failure detection in [printTillCurrent] *)

Section printTillCurrent_claims.
Import kcv1alpha1 app watch scenario.

(** C1 (evaluation at the failing input).  A deploy with exit code 1 whose
    [UpdatedAt] equals its [StartedAt] is failed by the rule of the data
    model, and the Fetch block reports the very same numbers as
    "Fetch failed"; the Deploy block tests [StartedAt < UpdatedAt]
    strictly, prints "Deploy started" and returns no error. *)
Theorem C1_deploy_failure_within_its_second_is_not_reported :
  failedBy (ExitCode deployFailedAtOnce) (StartedAt deployFailedAtOnce)
           (UpdatedAt deployFailedAtOnce)
  /\ reports "Fetch failed" (@printTillCurrent stages fetchOnly) = true
  /\ reports "Deploy failed" (@printTillCurrent stages deployOnly) = false
  /\ output (@printTillCurrent stages deployOnly)
     = [ {| message := "Deploy started"; messageBlock := "";
            errorBlock := false;
            startTime := Some (metav1.Seconds 100) |} ]
  /\ fst (@printTillCurrent stages deployOnly tailing) = go.Returned ("", None).
Proof.
  repeat split; try reflexivity; try discriminate.
Qed.


Context {names : AppStages}.



End printTillCurrent_claims.


(** ** The block printed next to a failure line *)

Section failure_blocks.
Import kcv1alpha1 app watch scenario.

(** In [printTillCurrent] every failure line carries the standard error
    of the stage it names, marked as an error block. *)
Lemma printTillCurrent_failure_block {names : AppStages} (status : AppStatus)
    (line : LogLine) :
  In line (output (printTillCurrent status)) ->
  (message line = "Fetch failed" ->
     exists f, Fetch status = Some f /\ messageBlock line = Stderr f
               /\ errorBlock line = true)
  /\ (message line = "Template failed" ->
        exists t, Template status = Some t /\ messageBlock line = Stderr t
                  /\ errorBlock line = true)
  /\ (message line = "Deploy failed" ->
        exists d : DeployStatus,
          Deploy status = Some d /\ messageBlock line = Stderr d
          /\ errorBlock line = true).
Proof.
  unfold_tailer. run_all.
  all: cbn; intros Hin.
  all: repeat (destruct Hin as [<- | Hin]; [cbn; repeat split; try discriminate; eauto|]).
  all: destruct Hin.
Qed.

(** In [printUpdate] the block next to "Fetch failed" is the standard
    error of the Template stage, whatever the update. *)
Lemma printUpdate_fetch_failed_block (oldStatus status : AppStatus) (line : LogLine) :
  In line (output (printUpdate oldStatus status)) ->
  message line = "Fetch failed" ->
  exists t, Template status = Some t /\ messageBlock line = Stderr t
            /\ errorBlock line = true.
Proof.
  unfold output, tailing, printUpdate, printUpdate_Fetch, printUpdate_Template,
    printUpdate_Deploy, nilOrChanged.
  run_all.
  all: cbn; intros Hin.
  all: repeat (destruct Hin as [<- | Hin]; [cbn; try discriminate; eauto|]).
  all: destruct Hin.
Qed.

(** C8 (evaluation at the failing input).  An update in which Fetch has
    just failed prints "Fetch failed" with the standard error of the
    Template stage, left over from an earlier run, and not with the
    standard error of Fetch; on a resource that has no Template status
    yet the same update stops at the nil pointer before the failure line
    is printed. *)
Theorem C8_fetch_failed_prints_template_stderr :
  output (printUpdate unset fetchJustFailed)
  = [ {| message := "Fetch started"; messageBlock := "";
         errorBlock := false; startTime := None |};
      {| message := "Fetch failed";
         messageBlock := "ytt: warning from the last run";
         errorBlock := true; startTime := None |};
      {| message := "Fetch succeeded"; messageBlock := "";
         errorBlock := false; startTime := None |};
      {| message := "Template succeeded"; messageBlock := "";
         errorBlock := false; startTime := None |} ]
  /\ Stderr <$> Fetch fetchJustFailed = Some "vendir: Error: Syncing directory"
  /\ fst (printUpdate unset fetchJustFailedFirstRun tailing)
     = go.Panicked go.NilPointerDereference
  /\ reports "Fetch failed" (printUpdate unset fetchJustFailedFirstRun) = false.
Proof.
  repeat split; reflexivity.
Qed.

End failure_blocks.

(** ** [statusString] *)

Section statusString_claims.
Import kcv1alpha1 app watch.
Context {painters : Color}.

(** C10.  [statusString] reads [Conditions[0]] before it looks at
    anything else: with a first condition it returns a string, which is
    [FriendlyDescription] only when the type of that condition is none of
    the five known ones, and with no condition at all the read is out of
    range and nothing is returned. *)
Theorem C10_statusString_reads_the_first_condition (status : AppStatus) :
  (Conditions status ≠ [] -> exists s, statusString status = go.Returned s)
  /\ (forall c rest, Conditions status = c :: rest ->
        (Type_ c = Reconciling -> statusString status = go.Returned "Reconciling")
        /\ (Type_ c = ReconcileSucceeded ->
              statusString status = go.Returned (GreenString "Reconcile succeeded"))
        /\ (Type_ c = ReconcileFailed ->
              statusString status = go.Returned (RedString "Reconcile failed"))
        /\ (Type_ c = Deleting -> statusString status = go.Returned "Deleting")
        /\ (Type_ c = DeleteFailed ->
              statusString status = go.Returned (RedString "Deletion failed"))
        /\ (~ In (Type_ c) [Reconciling; ReconcileSucceeded; ReconcileFailed;
                            Deleting; DeleteFailed] ->
              statusString status = go.Returned (FriendlyDescription status)))
  /\ (Conditions status = [] ->
        statusString status = go.Panicked (go.IndexOutOfRange 0 0)).
Proof.
  unfold statusString. split; [|split].
  - destruct (Conditions status) as [|c rest]; [done|]. cbn. eauto.
  - intros c rest ->. cbn [lookup list_lookup].
    repeat split; try (intros ->; reflexivity).
    intros unknown.
    repeat match goal with
           | |- context [String.eqb ?a ?b] =>
               destruct (String.eqb_spec a b) as [e|_];
               [exfalso; apply unknown; rewrite e; cbn; tauto|]
           end.
    reflexivity.
  - intros ->. reflexivity.
Qed.

End statusString_claims.

(** C10 (witness): a status whose first condition is ReconcileSucceeded, on
    a terminal without colours, and a status without conditions. *)
Lemma C10_statusString_reads_the_first_condition_witness :
  (exists s, @app.statusString watch.noColor
               (watch.status None None None
                  [scenario.condition kcv1alpha1.ReconcileSucceeded])
             = go.Returned s)
  /\ @app.statusString watch.noColor scenario.unset
     = go.Panicked (go.IndexOutOfRange 0 0).
Proof.
  destruct (C10_statusString_reads_the_first_condition (painters := watch.noColor)
              (watch.status None None None
                 [scenario.condition kcv1alpha1.ReconcileSucceeded]))
    as (returns & _ & _).
  destruct (C10_statusString_reads_the_first_condition (painters := watch.noColor)
              scenario.unset)
    as (_ & _ & panics).
  split; [apply returns; discriminate | apply panics; reflexivity].
Defined.

(** ** The restricted kapp flags *)

Section flag_gate.
Import exec deploy.

Lemma elem_of_NewFlagSet (flagSets : list (list string)) (flag : string) :
  flag ∈ NewFlagSet flagSets <-> exists flags, In flags flagSets /\ In flag flags.
Proof.
  unfold NewFlagSet. rewrite elem_of_union_list. split.
  - intros (X & HX & Hflag). apply list_elem_of_fmap in HX as (flags & -> & Hin).
    exists flags. rewrite <- !list_elem_of_In. split; [done|].
    by apply elem_of_list_to_set in Hflag.
  - intros (flags & Hin & Hflag). exists (list_to_set flags). split.
    + apply list_elem_of_fmap. exists flags. by rewrite list_elem_of_In.
    + apply elem_of_list_to_set. by rewrite list_elem_of_In.
Qed.

(** C4.  The Deploy list is shared ∪ change ∪ the deploy extras, the
    Delete list is shared ∪ change, the Inspect list is shared ∪
    {--raw, --status, --tree} and holds no change flag; so [--wait] is
    allowed for Deploy and Delete and not for Inspect. *)
Theorem C4_allow_lists_are_unions :
  (forall flag,
      flag ∈ allowList Deploy
      <-> In flag kappAllowedSharedOpts \/ In flag kappAllowedChangeOpts
          \/ In flag ["--dangerous-allow-empty-list-of-resources";
                      "--dangerous-override-ownership-of-existing-resources";
                      "--into-ns"; "--map-ns"; "--logs"; "--logs-all";
                      "--app-changes-max-to-keep"; "--labels"; "--patch"])
  /\ (forall flag,
         flag ∈ allowList Delete
         <-> In flag kappAllowedSharedOpts \/ In flag kappAllowedChangeOpts)
  /\ (forall flag,
         flag ∈ allowList Inspect
         <-> In flag kappAllowedSharedOpts \/ In flag ["--raw"; "--status"; "--tree"])
  /\ Forall (fun flag => flag ∉ allowList Inspect) kappAllowedChangeOpts
  /\ "--wait" ∈ allowList Deploy
  /\ "--wait" ∈ allowList Delete
  /\ "--wait" ∉ allowList Inspect.
Proof.
  repeat split.
  1-6: cbn [allowList];
       unfold kappAllowedDeployFlagSet, kappAllowedDeleteFlagSet,
         kappAllowedInspectFlagSet;
       rewrite elem_of_NewFlagSet.
  1,3,5: intros (flags & Hin & Hflag); cbn [In] in Hin;
         intuition (subst; auto).
  1-3: intros; cbn [In]; intuition eauto 6.
  all: apply (bool_decide_unpack _); vm_compute; exact I.
Qed.

End flag_gate.

Section flag_gate_rejection.
Import exec deploy.

Lemma firstRejected_Some (allowed : gset string) (flags : list string) (name : string) :
  firstRejected allowed flags = Some name ->
  (name ∉ allowed)
  /\ exists token, In token flags /\ isFlag token = true /\ flagName token = name.
Proof.
  induction flags as [|token rest IH]; cbn; [discriminate|].
  destruct (isFlag token) eqn:Hflag; cbn.
  - case_bool_decide as Hallowed; cbn.
    + intros Hrest. destruct (IH Hrest) as (? & t & ? & ? & ?). eauto 6.
    + intros [= <-]. eauto 6.
  - intros Hrest. destruct (IH Hrest) as (? & t & ? & ? & ?). eauto 6.
Qed.

Lemma firstRejected_None (allowed : gset string) (flags : list string) :
  firstRejected allowed flags = None
  <-> forall token, In token flags -> isFlag token = true -> flagName token ∈ allowed.
Proof.
  induction flags as [|token rest IH]; cbn.
  - split; [intros _ ? []|done].
  - destruct (isFlag token) eqn:Hflag; cbn.
    + case_bool_decide as Hallowed; cbn.
      * rewrite IH. split; [intros Hall t [<-|Hin]; auto | auto].
      * split; [discriminate|]. intros Hall. destruct Hallowed. auto.
    + rewrite IH. split; [intros Hall t [<-|Hin]; [congruence|auto] | auto].
Qed.

(** C3.  For each of the three operations: when some flag of the input
    has a name outside the allow-list, the invocation is rejected with an
    error that names such a flag and no argument list comes out; when the
    name of every flag is in the allow-list, the input comes out
    unchanged.  For Deploy, [--wait --danger-flag] is rejected naming
    [--danger-flag] and [--wait] alone is passed through. *)
Theorem C3_flag_gate_rejects_or_passes_unchanged (operation : Operation)
    (userSuppliedFlags : list string) :
  ((exists token, In token userSuppliedFlags /\ isFlag token = true
                  /\ flagName token ∉ allowList operation) ->
   exists name,
     BuildInvocation operation userSuppliedFlags = inl (FlagNotAllowed name)
     /\ (name ∉ allowList operation)
     /\ exists token, In token userSuppliedFlags /\ isFlag token = true
                      /\ flagName token = name)
  /\ ((forall token, In token userSuppliedFlags -> isFlag token = true ->
                     flagName token ∈ allowList operation) ->
      BuildInvocation operation userSuppliedFlags = inr userSuppliedFlags)
  /\ BuildInvocation Deploy ["--wait"; "--danger-flag"]
     = inl (FlagNotAllowed "--danger-flag")
  /\ BuildInvocation Deploy ["--wait"] = inr ["--wait"].
Proof.
  unfold BuildInvocation, Validate. repeat split.
  - intros (token & Hin & Hflag & Hout).
    destruct (firstRejected (allowList operation) userSuppliedFlags) as [name|] eqn:Hfirst.
    + exists name. split; [done|]. by apply firstRejected_Some.
    + destruct Hout. exact (proj1 (firstRejected_None _ _) Hfirst token Hin Hflag).
  - intros Hall. by rewrite (proj2 (firstRejected_None _ _) Hall).
Qed.

End flag_gate_rejection.

(** C3 (witness): the Delete operation, once with a flag that only Inspect
    allows and once with flags of its own list, one of them with a value. *)
Lemma C3_flag_gate_rejects_or_passes_unchanged_witness :
  (exists name,
      deploy.BuildInvocation deploy.Delete ["--wait-timeout=5m"; "--tree"]
      = inl (exec.FlagNotAllowed name)
      /\ (name ∉ deploy.allowList deploy.Delete)
      /\ exists token, In token ["--wait-timeout=5m"; "--tree"]
                       /\ exec.isFlag token = true /\ exec.flagName token = name)
  /\ deploy.BuildInvocation deploy.Delete ["--wait-timeout"; "5m"; "--filter-ns=kube-system"]
     = inr ["--wait-timeout"; "5m"; "--filter-ns=kube-system"].
Proof.
  destruct (C3_flag_gate_rejects_or_passes_unchanged deploy.Delete
              ["--wait-timeout=5m"; "--tree"]) as (rejects & _).
  destruct (C3_flag_gate_rejects_or_passes_unchanged deploy.Delete
              ["--wait-timeout"; "5m"; "--filter-ns=kube-system"]) as (_ & passes & _).
  split.
  - apply rejects. exists "--tree". split; [simpl; tauto|]. split; [reflexivity|].
    apply (bool_decide_unpack _). vm_compute. exact I.
  - apply passes. intros token [<-|[<-|[<-|[]]]] Hflag;
      try discriminate Hflag; apply (bool_decide_unpack _); vm_compute; exact I.
Defined.

(** ** Status persistence with retry *)

Section updateStatus_claims.
Import pkgingv1alpha1 pkgrepository.
Context {C : Type} {client : kcclient.Interface C}.

Lemma afterAttempts_S (n : nat) (a : CRDApp C) :
  afterAttempts (S n) a = afterAttempts n (snd (updateStatusOnce a)).
Proof.
  unfold afterAttempts. induction n as [|n IH]; [reflexivity|].
  change (Nat.iter (S (S n)) (fun a => snd (updateStatusOnce a)) a)
    with (snd (updateStatusOnce (Nat.iter (S n) (fun a => snd (updateStatusOnce a)) a))).
  rewrite IH. reflexivity.
Qed.

Lemma attempt_S (n : nat) (a : CRDApp C) :
  attempt (S n) a = attempt n (snd (updateStatusOnce a)).
Proof. unfold attempt. by rewrite afterAttempts_S. Qed.

(** The loop stops at the first attempt that succeeds. *)
Lemma updateStatus_loop_success (remaining n : nat) (lastErr : option go.error)
    (a : CRDApp C) :
  (n < remaining)%nat ->
  (forall k, (k < n)%nat -> attempt k a ≠ None) ->
  attempt n a = None ->
  updateStatus_loop remaining lastErr a = (None, afterAttempts (S n) a).
Proof.
  revert n lastErr a.
  induction remaining as [|remaining IH]; intros n lastErr a Hn Hbefore Hthis; [lia|].
  cbn [updateStatus_loop].
  destruct n as [|n].
  - unfold attempt in Hthis. cbn in Hthis. unfold afterAttempts. cbn.
    destruct (updateStatusOnce a) as [[err|] a']; cbn in *; congruence.
  - pose proof (Hbefore 0%nat ltac:(lia)) as Hfirst.
    unfold attempt in Hfirst. cbn in Hfirst.
    rewrite afterAttempts_S. rewrite attempt_S in Hthis.
    destruct (updateStatusOnce a) as [[err|] a'] eqn:Honce; cbn [fst snd] in *; [|done].
    apply IH; [lia| |done].
    intros k Hk. specialize (Hbefore (S k) ltac:(lia)).
    by rewrite attempt_S, Honce in Hbefore.
Qed.

(** When every attempt fails the loop ends with the error of the last. *)
Lemma updateStatus_loop_failure (remaining : nat) (lastErr : option go.error)
    (a : CRDApp C) :
  (forall k, (k < S remaining)%nat -> attempt k a ≠ None) ->
  updateStatus_loop (S remaining) lastErr a
  = (attempt remaining a, afterAttempts (S remaining) a).
Proof.
  revert lastErr a.
  induction remaining as [|remaining IH]; intros lastErr a Hall.
  - cbn [updateStatus_loop]. unfold attempt, afterAttempts. cbn.
    destruct (updateStatusOnce a) as [[err|] a'] eqn:Honce; [done|].
    specialize (Hall 0%nat ltac:(lia)). unfold attempt in Hall. cbn in Hall.
    by rewrite Honce in Hall.
  - pose proof (Hall 0%nat ltac:(lia)) as Hfirst.
    unfold attempt in Hfirst. cbn in Hfirst.
    rewrite afterAttempts_S, attempt_S.
    change (updateStatus_loop (S (S remaining)) lastErr a)
      with (let '(lastErr, a) := updateStatusOnce a in
            match lastErr with
            | None => (None, a)
            | Some _ => updateStatus_loop (S remaining) lastErr a
            end).
    destruct (updateStatusOnce a) as [[err|] a'] eqn:Honce; cbn [fst snd] in *; [|done].
    apply IH. intros k Hk. specialize (Hall (S k) ltac:(lia)).
    by rewrite attempt_S, Honce in Hall.
Qed.

(** C5.  [updateStatus] makes at most five attempts: if attempt [n+1]
    (for [n < 5]) is the first that succeeds it returns nil right after
    that attempt, and if all five fail it returns the error of the
    fifth. *)
Theorem C5_updateStatus_tries_at_most_five_times (desc : string) (a : CRDApp C) :
  let started := log_Info "Updating status" ["desc"; desc] a in
  (forall n, (n < 5)%nat ->
             (forall k, (k < n)%nat -> attempt k started ≠ None) ->
             attempt n started = None ->
             updateStatus desc a = (None, afterAttempts (S n) started))
  /\ ((forall k, (k < 5)%nat -> attempt k started ≠ None) ->
      updateStatus desc a = (attempt 4 started, afterAttempts 5 started)
      /\ attempt 4 started ≠ None).
Proof.
  intros started. unfold updateStatus. fold started. split.
  - intros n Hn Hbefore Hthis. by apply updateStatus_loop_success.
  - intros Hall. split; [by apply updateStatus_loop_failure | apply Hall; lia].
Qed.

End updateStatus_claims.

(** C5 (witness): four rounds answered with a conflict and then a store
    that accepts the write; and five rounds answered with a conflict. *)
Lemma C5_updateStatus_tries_at_most_five_times_witness :
  fst (pkgrepository.updateStatus "Reconcile succeeded"
         (cluster.adapter [] (cluster.conflicts 4))) = None
  /\ cluster.writes (snd (pkgrepository.updateStatus "Reconcile succeeded"
                            (cluster.adapter [] (cluster.conflicts 4)))) = 5%nat
  /\ fst (pkgrepository.updateStatus "Reconcile succeeded"
            (cluster.adapter [] (cluster.conflicts 5))) = Some fake.Conflict
  /\ cluster.writes (snd (pkgrepository.updateStatus "Reconcile succeeded"
                            (cluster.adapter [] (cluster.conflicts 5)))) = 5%nat.
Proof.
  destruct (C5_updateStatus_tries_at_most_five_times "Reconcile succeeded"
              (cluster.adapter [] (cluster.conflicts 4))) as (success & _).
  destruct (C5_updateStatus_tries_at_most_five_times "Reconcile succeeded"
              (cluster.adapter [] (cluster.conflicts 5))) as (_ & failure).
  assert (forall k : nat, (k < 5)%nat -> k = 0%nat \/ k = 1%nat \/ k = 2%nat
                                        \/ k = 3%nat \/ k = 4%nat) as below by lia.
  rewrite (success 4%nat);
    [ | lia
      | intros k Hk;
        destruct (below k ltac:(lia)) as [->|[->|[->|[->| ->]]]];
        try lia; vm_compute; discriminate
      | vm_compute; reflexivity ].
  destruct failure as [-> _].
  { intros k Hk.
    destruct (below k Hk) as [->|[->|[->|[->| ->]]]]; vm_compute; discriminate. }
  repeat split; vm_compute; reflexivity.
Defined.

(** ** Finalizers *)

Section finalizer_claims.
Import pkgingv1alpha1 pkgrepository cluster.
Context {names : FinalizerNames}.

(** One read-modify-write cycle against such a store. *)
Lemma updatePackageRepository_stored (a : CRDApp fake.Clientset)
    (repo : PackageRepository) (updateFunc : PackageRepository -> PackageRepository) :
  stored a repo ->
  Namespace (updateFunc repo) = Namespace repo ->
  Name (updateFunc repo) = Name repo ->
  let a' := snd (updatePackageRepository updateFunc a) in
  fst (updatePackageRepository updateFunc a) = None
  /\ stored a' (updateFunc repo)
  /\ pkgrModel a' = pkgrModel a
  /\ fake.actions (appClient a')
     = (fake.actions (appClient a)
          ++ [fake.GetAction (Namespace (pkgrModel a)) (Name (pkgrModel a));
              fake.UpdateAction (Namespace repo) (updateFunc repo)])%list.
Proof.
  intros (Hget & Hns & Hname & Hscript) Hns' Hname'.
  unfold stored, updatePackageRepository, log_Info, withClient.
  cbn [pkgrModel appClient kcclient.Get kcclient.Update fake.clientset].
  unfold fake.get, fake.update, fake.Invokes, fake.replace.
  rewrite Hscript, Hget. cbn [fake.tracker fake.reactions fake.actions tail].
  rewrite Hns', Hname', Hns, Hname, Hget.
  cbn [fst snd pkgrModel appClient fake.tracker fake.reactions fake.actions tail].
  rewrite lookup_insert_eq, <- Hns, <- app_assoc. done.
Qed.

Lemma containsString_In (slice : list string) (s : string) :
  containsString slice s = true <-> In s slice.
Proof.
  unfold containsString. rewrite existsb_exists. split.
  - intros (item & Hin & Heq). apply String.eqb_eq in Heq. by subst.
  - intros Hin. exists s. by rewrite String.eqb_refl.
Qed.

Lemma In_removeString (slice : list string) (s item : string) :
  In item (removeString slice s) <-> In item slice /\ item ≠ s.
Proof.
  unfold removeString. rewrite List.filter_In, negb_true_iff, String.eqb_neq. done.
Qed.

Lemma removeString_twice (slice : list string) (s s' : string) :
  removeString (removeString slice s) s'
  = List.filter (fun item => negb (item =? s)%string && negb (item =? s')%string) slice.
Proof.
  unfold removeString. induction slice as [|item rest IH]; [done|].
  cbn. destruct (item =? s)%string; cbn; [done|].
  destruct (item =? s')%string; cbn; by rewrite IH.
Qed.

(** C7.  Whatever finalizer list the stored resource starts with, after
    [unblockDeletion] the stored list holds neither the current nor the
    previous finalizer name, and every other entry is kept, in order and
    as often as it occurred. *)
Theorem C7_unblockDeletion_removes_both_names (a : CRDApp fake.Clientset)
    (repo : PackageRepository) :
  stored a repo ->
  fst (unblockDeletion a) = None
  /\ exists repo',
       stored (snd (unblockDeletion a)) repo'
       /\ ~ In deleteFinalizerName (Finalizers repo')
       /\ ~ In deletePrevFinalizerName (Finalizers repo')
       /\ Finalizers repo'
          = List.filter (fun item => negb (item =? deleteFinalizerName)%string
                                     && negb (item =? deletePrevFinalizerName)%string)
                        (Finalizers repo)
       /\ forall item, item ≠ deleteFinalizerName -> item ≠ deletePrevFinalizerName ->
                       count_occ string_dec (Finalizers repo') item
                       = count_occ string_dec (Finalizers repo) item.
Proof.
  intros Hstored. unfold unblockDeletion.
  set (updateFunc := fun app : PackageRepository => withFinalizers _ _).
  set (started := log_Info _ _ a).
  assert (stored started repo) as Hstarted by exact Hstored.
  destruct (updatePackageRepository_stored started repo updateFunc Hstarted
              eq_refl eq_refl) as (Herr & Hafter & _).
  split; [exact Herr|]. exists (updateFunc repo). split; [exact Hafter|].
  subst updateFunc. cbn [withFinalizers Finalizers Meta].
  rewrite removeString_twice. repeat split.
  - rewrite List.filter_In, andb_true_iff, !negb_true_iff, !String.eqb_neq. tauto.
  - rewrite List.filter_In, andb_true_iff, !negb_true_iff, !String.eqb_neq. tauto.
  - intros item Hcur Hprev. induction (Finalizers repo) as [|x rest IH]; [done|].
    cbn. destruct (String.eqb_spec x deleteFinalizerName) as [->|?]; cbn.
    + destruct (string_dec deleteFinalizerName item); [congruence|done].
    + destruct (String.eqb_spec x deletePrevFinalizerName) as [->|?]; cbn.
      * destruct (string_dec deletePrevFinalizerName item); [congruence|done].
      * destruct (string_dec x item); by rewrite IH.
Qed.

End finalizer_claims.

Section blockDeletion_claims.
Import pkgingv1alpha1 pkgrepository cluster.
Context {names : FinalizerNames}.

(** With the finalizer in the adapter's copy of the resource,
    [blockDeletion] touches neither the client nor the log, whatever the
    client is. *)
Lemma blockDeletion_present {C : Type} {client : kcclient.Interface C} (a : CRDApp C) :
  containsString (Finalizers (pkgrModel a)) deleteFinalizerName = true ->
  blockDeletion a = (None, a).
Proof. intros Hpresent. unfold blockDeletion. by rewrite Hpresent. Qed.

Lemma count_occ_containsString (slice : list string) (s : string) :
  count_occ string_dec
    (if containsString slice s then slice else (slice ++ [s])%list) s
  = Nat.max 1 (count_occ string_dec slice s).
Proof.
  destruct (containsString slice s) eqn:Hcontains.
  - apply containsString_In in Hcontains.
    apply (count_occ_In string_dec) in Hcontains. lia.
  - assert (~ In s slice) as Habsent.
    { rewrite <- containsString_In. congruence. }
    apply (count_occ_not_In string_dec) in Habsent.
    rewrite count_occ_app, Habsent. cbn.
    destruct (string_dec s s); [done|congruence].
Qed.

(** C6 (amended).  [blockDeletion] decides on the adapter's own copy of
    the resource.  When that copy holds the finalizer it returns nil
    without a read or a write, whatever the store holds.  When the copy
    does not hold the finalizer, or holds the list the store holds, two
    calls in a row on a stored resource append the name if the stored
    list does not hold it and leave the stored list as it is if it
    does: the name then occurs once if it occurred at most once at the
    start, and as often as at the start otherwise. *)
Theorem C6_blockDeletion_twice_adds_the_name_at_most_once
    (a : CRDApp fake.Clientset) (repo : PackageRepository) :
  (containsString (Finalizers (pkgrModel a)) deleteFinalizerName = true ->
   blockDeletion a = (None, a))
  /\ (stored a repo ->
      containsString (Finalizers (pkgrModel a)) deleteFinalizerName = false
      \/ Finalizers (pkgrModel a) = Finalizers repo ->
      let once := blockDeletion a in
      let twice := blockDeletion (snd once) in
      fst once = None /\ fst twice = None
      /\ exists repo',
           stored (snd twice) repo'
           /\ Finalizers repo'
              = (if containsString (Finalizers repo) deleteFinalizerName
                 then Finalizers repo
                 else Finalizers repo ++ [deleteFinalizerName])%list
           /\ count_occ string_dec (Finalizers repo') deleteFinalizerName
              = Nat.max 1 (count_occ string_dec (Finalizers repo) deleteFinalizerName)
           /\ ((count_occ string_dec (Finalizers repo) deleteFinalizerName <= 1)%nat ->
               count_occ string_dec (Finalizers repo') deleteFinalizerName = 1%nat)).
Proof.
  split; [apply blockDeletion_present|].
  intros Hstored Hcopy once twice. subst once twice.
  pose proof (count_occ_containsString (Finalizers repo) deleteFinalizerName) as Hcount.
  assert (forall l : list string,
             count_occ string_dec l deleteFinalizerName
             = Nat.max 1 (count_occ string_dec (Finalizers repo) deleteFinalizerName) ->
             (count_occ string_dec (Finalizers repo) deleteFinalizerName <= 1)%nat ->
             count_occ string_dec l deleteFinalizerName = 1%nat) as Hone by lia.
  destruct (containsString (Finalizers (pkgrModel a)) deleteFinalizerName) eqn:Hlocal.
  - destruct Hcopy as [Habsent | Hsync]; [discriminate|].
    rewrite Hsync in Hlocal. rewrite Hlocal in *.
    assert (blockDeletion a = (None, a)) as ->.
    { apply blockDeletion_present. by rewrite Hsync. }
    cbn [fst snd].
    assert (blockDeletion a = (None, a)) as ->.
    { apply blockDeletion_present. by rewrite Hsync. }
    cbn [fst snd]. split; [done|]. split; [done|]. exists repo. auto.
  - clear Hcopy.
    pose (updateFunc := fun app : PackageRepository =>
             if negb (containsString (Finalizers app) deleteFinalizerName)
             then withFinalizers app (Finalizers app ++ [deleteFinalizerName])
             else app).
    assert (forall b : CRDApp fake.Clientset,
               pkgrModel b = pkgrModel a ->
               blockDeletion b
               = updatePackageRepository updateFunc (log_Info "Blocking deletion" [] b))
      as Habsent_run.
    { intros b Hb. unfold blockDeletion. by rewrite Hb, Hlocal. }
    rewrite (Habsent_run a eq_refl).
    set (started := log_Info _ _ a).
    assert (stored started repo) as Hstarted by exact Hstored.
    assert (forall r, Namespace (updateFunc r) = Namespace r) as Hns.
    { intros r. subst updateFunc. cbn beta.
      by destruct (containsString (Finalizers r) deleteFinalizerName). }
    assert (forall r, Name (updateFunc r) = Name r) as Hname.
    { intros r. subst updateFunc. cbn beta.
      by destruct (containsString (Finalizers r) deleteFinalizerName). }
    destruct (updatePackageRepository_stored started repo updateFunc Hstarted
                (Hns _) (Hname _)) as (Herr & Hafter & Hmodel & _).
    set (first := updatePackageRepository updateFunc started) in *.
    rewrite (Habsent_run (snd first)) by exact Hmodel.
    set (restarted := log_Info _ _ (snd first)).
    assert (stored restarted (updateFunc repo)) as Hrestarted by exact Hafter.
    destruct (updatePackageRepository_stored restarted (updateFunc repo) updateFunc
                Hrestarted (Hns _) (Hname _)) as (Herr' & Hafter' & _).
    split; [done|]. split; [done|].
    exists (updateFunc (updateFunc repo)). split; [done|].
    assert (Finalizers (updateFunc (updateFunc repo))
            = (if containsString (Finalizers repo) deleteFinalizerName
               then Finalizers repo
               else Finalizers repo ++ [deleteFinalizerName])%list) as ->.
    { unfold updateFunc at 2.
      destruct (containsString (Finalizers repo) deleteFinalizerName) eqn:Hcontains;
        cbn [negb].
      - unfold updateFunc. by rewrite Hcontains.
      - unfold updateFunc.
        assert (containsString
                  (Finalizers (withFinalizers repo
                                 (Finalizers repo ++ [deleteFinalizerName])))
                  deleteFinalizerName = true) as ->; [|done].
        apply containsString_In. cbn [withFinalizers Finalizers Meta].
        apply in_or_app. right. by left. }
    split; [done|]. split; [exact Hcount|]. by apply Hone.
Qed.

End blockDeletion_claims.

Section finalizer_runs.
Import pkgingv1alpha1.

(** C6 (counterexample).  A resource whose finalizer list already holds
    the name twice: both calls return at the first test, nothing is
    written, and two copies remain.  And an adapter whose copy holds the
    name while the stored list is empty: both calls return at the first
    test, and the stored list stays without the name. *)
Lemma C6_duplicated_name_stays_duplicated :
  cluster.storedFinalizers
    (snd (@pkgrepository.blockDeletion _ _ cluster.finalizers
            (snd (@pkgrepository.blockDeletion _ _ cluster.finalizers
                    (cluster.adapter lists.duplicated [])))))
  = Some [lists.current; lists.current]
  /\ count_occ string_dec [lists.current; lists.current] lists.current = 2%nat
  /\ cluster.writes
       (snd (@pkgrepository.blockDeletion _ _ cluster.finalizers
               (snd (@pkgrepository.blockDeletion _ _ cluster.finalizers
                       (cluster.adapter lists.duplicated []))))) = 0%nat
  /\ cluster.storedFinalizers
       (snd (@pkgrepository.blockDeletion _ _ cluster.finalizers
               (snd (@pkgrepository.blockDeletion _ _ cluster.finalizers
                       (outdated.adapter [lists.current] [])))))
     = Some [].
Proof. repeat split; vm_compute; reflexivity. Qed.

(** C6 (witness): a resource that holds only a finalizer of another
    controller, once with an adapter built from it and once with an
    adapter whose copy is an older, empty list; and a resource that
    holds the name already. *)
Lemma C6_blockDeletion_twice_adds_the_name_at_most_once_witness :
  (exists repo',
      cluster.stored
        (snd (@pkgrepository.blockDeletion _ _ cluster.finalizers
                (snd (@pkgrepository.blockDeletion _ _ cluster.finalizers
                        (cluster.adapter lists.foreign [])))))
        repo'
      /\ count_occ string_dec (pkgingv1alpha1.Finalizers repo') lists.current = 1%nat)
  /\ (exists repo',
         cluster.stored
           (snd (@pkgrepository.blockDeletion _ _ cluster.finalizers
                   (snd (@pkgrepository.blockDeletion _ _ cluster.finalizers
                           (outdated.adapter [] lists.foreign)))))
           repo'
         /\ pkgingv1alpha1.Finalizers repo'
            = ["kubernetes.io/pv-protection"; lists.current])
  /\ @pkgrepository.blockDeletion _ _ cluster.finalizers
       (cluster.adapter [lists.current] [])
     = (None, cluster.adapter [lists.current] []).
Proof.
  destruct (C6_blockDeletion_twice_adds_the_name_at_most_once
              (names := cluster.finalizers)
              (cluster.adapter lists.foreign []) (cluster.repository lists.foreign))
    as (_ & twice).
  destruct (C6_blockDeletion_twice_adds_the_name_at_most_once
              (names := cluster.finalizers)
              (outdated.adapter [] lists.foreign) (cluster.repository lists.foreign))
    as (_ & behind).
  destruct (C6_blockDeletion_twice_adds_the_name_at_most_once
              (names := cluster.finalizers)
              (cluster.adapter [lists.current] []) (cluster.repository [lists.current]))
    as (present & _).
  split; [|split].
  - destruct twice as (_ & _ & repo' & Hstored & _ & _ & Hone).
    + unfold cluster.stored. vm_compute. repeat split; reflexivity.
    + right. reflexivity.
    + exists repo'. split; [exact Hstored|]. apply Hone. vm_compute. lia.
  - destruct behind as (_ & _ & repo' & Hstored & Hlist & _).
    + unfold cluster.stored. vm_compute. repeat split; reflexivity.
    + left. vm_compute. reflexivity.
    + exists repo'. split; [exact Hstored|]. rewrite Hlist. vm_compute. reflexivity.
  - apply present. vm_compute. reflexivity.
Defined.

(** C7 (witness): a list that holds the current name twice, the previous
    name once and two finalizers of other controllers. *)
Lemma C7_unblockDeletion_removes_both_names_witness :
  fst (@pkgrepository.unblockDeletion _ _ cluster.finalizers
         (cluster.adapter lists.mixed [])) = None
  /\ exists repo',
       cluster.stored
         (snd (@pkgrepository.unblockDeletion _ _ cluster.finalizers
                 (cluster.adapter lists.mixed [])))
         repo'
       /\ pkgingv1alpha1.Finalizers repo'
          = ["kubernetes.io/pv-protection"; "example.com/cleanup"].
Proof.
  destruct (C7_unblockDeletion_removes_both_names (names := cluster.finalizers)
              (cluster.adapter lists.mixed []) (cluster.repository lists.mixed))
    as (Herr & repo' & Hstored & _ & _ & Hfilter & _).
  - unfold cluster.stored. vm_compute. repeat split; reflexivity.
  - split; [exact Herr|]. exists repo'. split; [exact Hstored|].
    rewrite Hfilter. vm_compute. reflexivity.
Defined.

End finalizer_runs.

(** ** The streak counters *)

Section counters.
Import kcv1alpha1 engine.

Lemma statusAfter_snoc (outcomes : list Outcome) (outcome : Outcome) :
  statusAfter (outcomes ++ [outcome])
  = setReconcileCompleted outcome (statusAfter outcomes).
Proof. unfold statusAfter. by rewrite fold_left_app. Qed.

(** C9 (amended).  After any sequence of terminal outcomes the two
    counters are never both non-zero; exactly one of them is non-zero
    once a reconcile has completed, and both are zero before the first
    one has, which is the case [metricString] prints with its third
    line. *)
Theorem C9_counters_exclude_each_other (outcomes : list Outcome) :
  let status := statusAfter outcomes in
  ~ (ConsecutiveReconcileSuccesses status ≠ 0%nat
     /\ ConsecutiveReconcileFailures status ≠ 0%nat)
  /\ (outcomes ≠ [] ->
      (ConsecutiveReconcileSuccesses status ≠ 0%nat
       /\ ConsecutiveReconcileFailures status = 0%nat)
      \/ (ConsecutiveReconcileSuccesses status = 0%nat
          /\ ConsecutiveReconcileFailures status ≠ 0%nat))
  /\ (outcomes = [] ->
      ConsecutiveReconcileSuccesses status = 0%nat
      /\ ConsecutiveReconcileFailures status = 0%nat
      /\ app.metricString status = "0 consecutive failures | 0 consecutive successes").
Proof.
  cbn zeta. destruct outcomes as [|first rest] using rev_ind.
  - split; [cbn; lia|]. split; [done|]. intros _. repeat split.
  - rewrite statusAfter_snoc.
    destruct first; cbn; (split; [lia|]); (split; [intros _; lia|]);
      intros Hnil; by apply app_eq_nil in Hnil as [_ ?].
Qed.

End counters.

(** C9 (counterexample).  The status of a resource that has not completed
    a reconcile is the status after no outcome at all: neither counter is
    non-zero, so it is not the case that exactly one is, and
    [metricString] has a line for it. *)
Lemma C9_both_counters_start_at_zero :
  kcv1alpha1.ConsecutiveReconcileSuccesses (engine.statusAfter []) = 0%nat
  /\ kcv1alpha1.ConsecutiveReconcileFailures (engine.statusAfter []) = 0%nat
  /\ ~ ((kcv1alpha1.ConsecutiveReconcileSuccesses (engine.statusAfter []) ≠ 0%nat
         /\ kcv1alpha1.ConsecutiveReconcileFailures (engine.statusAfter []) = 0%nat)
        \/ (kcv1alpha1.ConsecutiveReconcileSuccesses (engine.statusAfter []) = 0%nat
            /\ kcv1alpha1.ConsecutiveReconcileFailures (engine.statusAfter []) ≠ 0%nat))
  /\ app.metricString (engine.statusAfter [])
     = "0 consecutive failures | 0 consecutive successes".
Proof.
  repeat split. intros [[nonzero _]|[_ nonzero]]; by apply nonzero.
Qed.

(** C9 (witness): two failures after a success. *)
Lemma C9_counters_exclude_each_other_witness :
  (kcv1alpha1.ConsecutiveReconcileSuccesses
     (engine.statusAfter [engine.Succeeded; engine.Failed; engine.Failed]) ≠ 0%nat
   /\ kcv1alpha1.ConsecutiveReconcileFailures
        (engine.statusAfter [engine.Succeeded; engine.Failed; engine.Failed]) = 0%nat)
  \/ (kcv1alpha1.ConsecutiveReconcileSuccesses
        (engine.statusAfter [engine.Succeeded; engine.Failed; engine.Failed]) = 0%nat
      /\ kcv1alpha1.ConsecutiveReconcileFailures
           (engine.statusAfter [engine.Succeeded; engine.Failed; engine.Failed]) ≠ 0%nat).
Proof.
  destruct (C9_counters_exclude_each_other
              [engine.Succeeded; engine.Failed; engine.Failed]) as (_ & one & _).
  apply one. discriminate.
Defined.

(** * Further properties *)

(** ** [printTillCurrent] as a whole *)

Ltac reflect_seconds :=
  repeat match goal with
         | |- context [metav1.Unix ?t] =>
             lazymatch goal with
             | _ : metav1.Unix t = t / 1000000000 |- _ => fail
             | _ => assert (metav1.Unix t = t / 1000000000) by reflexivity
             end
         | H : context [metav1.Unix ?t] |- _ =>
             lazymatch goal with
             | _ : metav1.Unix t = t / 1000000000 |- _ => fail
             | _ => assert (metav1.Unix t = t / 1000000000) by reflexivity
             end
         end.

Section printTillCurrent_more.
Import kcv1alpha1 app watch lines.
Context {names : AppStages}.

Lemma Unix_mono (t u : metav1.Time) : t <= u -> metav1.Unix t <= metav1.Unix u.
Proof. intros Htu. unfold metav1.Unix. by apply Z.div_le_mono. Qed.

Lemma Unix_lt (t u : metav1.Time) : metav1.Unix t < metav1.Unix u -> t < u.
Proof.
  intros Hlt. destruct (Z.lt_ge_cases t u) as [|Hge]; [done|].
  apply Unix_mono in Hge. lia.
Qed.

(** X1.  What [printTillCurrent] prints and returns does not depend on
    the watcher it runs on; it only appends to the terminal, at most
    three lines, and leaves the channel and the other fields alone. *)
Theorem X1_printTillCurrent_only_appends (status : AppStatus) (o : AppWatcher) :
  snd (printTillCurrent status o) = say o (output (printTillCurrent status))
  /\ fst (printTillCurrent status o) = fst (printTillCurrent status tailing)
  /\ (length (output (printTillCurrent status)) <= 3)%nat.
Proof.
  destruct o as [ns name follow ignore terminal chan].
  unfold say. unfold_tailer. run_all.
  all: cbn; rewrite <- ?app_assoc, ?app_nil_r; cbn; repeat split; lia.
Qed.

(** X2.  [printTillCurrent] returns an error exactly when it has printed
    a failure line.  The failure line is then the last line printed, it
    is marked as an error block, and what is returned belongs to the
    stage that line names: after "Fetch failed", [fetchStage] and the
    error made by [fmt.Errorf] from the standard error of Fetch, which
    is also the block printed; after "Template failed" the same for
    Template; after "Deploy failed", [deployStage] and the error made
    from [Deploy.Error], next to the standard error of Deploy as the
    block.  A run that returns no error has printed no failure line,
    and a run that panics has printed nothing. *)
Theorem X2_printTillCurrent_error_iff_failure_line (status : AppStatus) :
  let run := printTillCurrent status in
  (forall stage e,
      fst (run tailing) = go.Returned (stage, Some e) ->
      exists line,
        last (output run) = Some line /\ errorBlock line = true
        /\ ((message line = "Fetch failed"
             /\ exists f, Fetch status = Some f /\ stage = fetchStage
                          /\ e = go.Errorf (Stderr f)
                          /\ messageBlock line = Stderr f)
            \/ (message line = "Template failed"
                /\ exists t, Template status = Some t /\ stage = templateStage
                             /\ e = go.Errorf (Stderr t)
                             /\ messageBlock line = Stderr t)
            \/ (message line = "Deploy failed"
                /\ exists d : DeployStatus,
                     Deploy status = Some d /\ stage = deployStage
                     /\ e = go.Errorf (Error d)
                     /\ messageBlock line = Stderr d)))
  /\ (forall stage,
         fst (run tailing) = go.Returned (stage, None) ->
         existsb isFailure (output run) = false)
  /\ (forall p, fst (run tailing) = go.Panicked p -> output run = []).
Proof.
  unfold_tailer. run_all.
  all: cbn; split; [|split].
  all: try (intros stage e Hreturned;
            first [ discriminate Hreturned
                  | injection Hreturned as <- <-; eexists; split; [reflexivity|];
                    split; [reflexivity|];
                    first [ left; split; [reflexivity|]; eauto 10
                          | right; left; split; [reflexivity|]; eauto 10
                          | right; right; split; [reflexivity|]; eauto 10 ] ]).
  all: intros x Hrun; first [discriminate Hrun | reflexivity].
Qed.

(** X3.  [printTillCurrent] panics exactly on a status that has a
    Template stage and no Fetch stage, and the panic is the nil pointer
    dereference. *)
Theorem X3_printTillCurrent_panics_iff_template_without_fetch (status : AppStatus)
    (o : AppWatcher) :
  (exists p, fst (printTillCurrent status o) = go.Panicked p)
  <-> Fetch status = None /\ Template status ≠ None.
Proof.
  unfold_tailer. run_all.
  all: cbn; split; [intros [p Hp]; try discriminate Hp; done | intros [Hf Ht]; try done].
  all: eauto.
Qed.


(** X5.  With a Fetch stage exactly one Fetch line is printed, and the
    three lines read: failed, a non-zero exit code not updated in an
    earlier second than started; succeeded, exit code zero and not
    updated before started; started, the rest. *)
Theorem X5_fetch_line_is_one_of_three (status : AppStatus) (f : StageStatus) :
  Fetch status = Some f ->
  let run := printTillCurrent status in
  (reports "Fetch failed" run = true
   <-> ExitCode f ≠ 0 /\ metav1.Unix (StartedAt f) <= metav1.Unix (UpdatedAt f))
  /\ (reports "Fetch succeeded" run = true
      <-> ExitCode f = 0 /\ StartedAt f <= UpdatedAt f)
  /\ (reports "Fetch started" run = true
      <-> UpdatedAt f < StartedAt f
          /\ (ExitCode f = 0
              \/ metav1.Unix (UpdatedAt f) < metav1.Unix (StartedAt f)))
  /\ (if reports "Fetch failed" run then 1 else 0)
     + (if reports "Fetch succeeded" run then 1 else 0)
     + (if reports "Fetch started" run then 1 else 0) = 1.
Proof.
  intros Hf. cbn zeta.
  pose proof (Unix_mono (StartedAt f) (UpdatedAt f)) as Hmono.
  pose proof (Unix_lt (UpdatedAt f) (StartedAt f)) as Hlt.
  unfold_tailer. rewrite Hf. run_all.
  all: cbn; reflect_tests; repeat split; try done; try lia;
       intuition (try lia; try congruence).
Qed.

(** X6.  "Deploy succeeded" is printed only for a status that carries a
    ReconcileSucceeded condition with status True, and the run then
    returns the [reconciled] stage and no error. *)
Theorem X6_deploy_succeeded_means_reconciled (status : AppStatus) :
  reports "Deploy succeeded" (printTillCurrent status) = true ->
  hasReconciled status = true
  /\ fst (printTillCurrent status tailing) = go.Returned (reconciled, None).
Proof.
  unfold_tailer. run_all.
  all: cbn; intros Hline; try discriminate Hline; done.
Qed.

End printTillCurrent_more.

(** ** What the tailer does not read *)

Section tailer_reads.
Import kcv1alpha1 app watch lines reads.

(** X7.  [printTillCurrent] reads the Fetch and Deploy stages, the
    conditions, and of the Template stage the exit code, [UpdatedAt] and
    the standard error: two statuses that agree on these print the same
    lines and return the same value, whatever the start time and the
    standard output of Template, the description and the counters. *)
Theorem X7_printTillCurrent_reads {names : AppStages} (status status' : AppStatus)
    (o : AppWatcher) :
  ofPrintTillCurrent status = ofPrintTillCurrent status' ->
  printTillCurrent status o = printTillCurrent status' o.
Proof.
  unfold ofPrintTillCurrent. intros [= Hf Ht Hd Hc].
  unfold printTillCurrent, printTillCurrent_Template, printTillCurrent_Deploy,
    hasReconciled.
  rewrite Hf, Hd, Hc.
  destruct (Template status) as [t|], (Template status') as [t'|];
    try discriminate Ht; [|reflexivity].
  cbn in Ht. injection Ht as -> -> ->. reflexivity.
Qed.

(** X8.  [printUpdate] never reads the standard error of Fetch, nor the
    exit code and the error text of Deploy, and of the old status it
    reads the times only: two calls whose statuses agree on the fields
    listed in [ofPrintUpdate] and [ofPrintUpdateOld] behave alike. *)
Theorem X8_printUpdate_reads (oldStatus oldStatus' status status' : AppStatus)
    (o : AppWatcher) :
  ofPrintUpdateOld oldStatus = ofPrintUpdateOld oldStatus' ->
  ofPrintUpdate status = ofPrintUpdate status' ->
  printUpdate oldStatus status o = printUpdate oldStatus' status' o.
Proof.
  unfold ofPrintUpdateOld, ofPrintUpdate.
  intros [= Hof Hot Hod] [= Hf Ht Hd Hc].
  unfold printUpdate, printUpdate_Fetch, printUpdate_Template, printUpdate_Deploy,
    nilOrChanged, hasReconciled.
  rewrite Hc.
  destruct (Fetch status) as [f|], (Fetch status') as [f'|]; try discriminate Hf;
  destruct (Template status) as [t|], (Template status') as [t'|]; try discriminate Ht;
  destruct (Deploy status) as [d|], (Deploy status') as [d'|]; try discriminate Hd;
  destruct (Fetch oldStatus) as [fo|], (Fetch oldStatus') as [fo'|]; try discriminate Hof;
  destruct (Template oldStatus) as [ot|], (Template oldStatus') as [ot'|];
    try discriminate Hot;
  destruct (Deploy oldStatus) as [od|], (Deploy oldStatus') as [od'|];
    try discriminate Hod;
  cbn in Hf, Ht, Hd, Hof, Hot, Hod;
  repeat match goal with
         | H : Some _ = Some _ |- _ => injection H; clear H; intros
         end;
  cbv beta iota delta [go.deref mbind go_M_bind go.bind go.ret];
  repeat match goal with
         | H : _ = _ |- _ => rewrite H; clear H
         end;
  reflexivity.
Qed.

End tailer_reads.

(** ** [printUpdate] as a whole *)

(** Symbolic execution of a run kept in a hypothesis [H : r = run]: the
    test the run is waiting for is found at the head of the term and
    split, so that only the paths the code can take are visited. *)
Ltac waiting_for t :=
  lazymatch t with
  | if ?c then _ else _ => waiting_in c
  | match ?o with Some _ => _ | None => _ end => waiting_in o
  | match ?p with pair _ _ => _ end => waiting_in p
  | match ?r with go.Returned _ => _ | go.Panicked _ => _ end => waiting_in r
  | match ?c with go.ChanNil => _ | go.ChanOpen => _ | go.ChanClosed => _ end =>
      waiting_in c
  | ?f _ => waiting_for f
  end
with waiting_in c :=
  lazymatch c with
  | if _ then _ else _ => waiting_for c
  | match _ with Some _ => _ | None => _ end => waiting_for c
  | match _ with pair _ _ => _ end => waiting_for c
  | match _ with go.Returned _ => _ | go.Panicked _ => _ end => waiting_for c
  | match _ with go.ChanNil => _ | go.ChanOpen => _ | go.ChanClosed => _ end =>
      waiting_for c
  | ?f _ =>
      lazymatch f with
      | if _ then _ else _ => waiting_for c
      | match _ with Some _ => _ | None => _ end => waiting_for c
      | _ => c
      end
  | _ => c
  end.

Ltac exec_step H :=
  cbv beta iota zeta delta
    [mbind mret go_M_bind go_M_ret go.bind go.ret go.deref go.raise go.when
     app.printLogLine app.stopWatch go.close snd fst
     app.ui app.stopperChan app.Namespace app.Name app.Follow
     app.IgnoreNotExists] in H.

Ltac exec H :=
  repeat (exec_step H;
          lazymatch type of H with
          | _ = ?t => let c := waiting_for t in destruct c eqn:?
          end);
  exec_step H.

Ltac unfold_update H :=
  unfold watch.tailing, app.printUpdate, app.printUpdate_Fetch,
    app.printUpdate_Template, app.printUpdate_Deploy, app.nilOrChanged in H.

Section printUpdate_more.
Import kcv1alpha1 app watch lines.

(** X9.  An update that changes no time of any stage, on a resource
    that is not reconciled, prints nothing and leaves the watcher as it
    is. *)
Theorem X9_printUpdate_is_silent_without_change (oldStatus status : AppStatus)
    (o : AppWatcher) :
  unchanged oldStatus status ->
  hasReconciled status = false ->
  printUpdate oldStatus status o = (go.Returned tt, o).
Proof.
  unfold unchanged, sameTimes. intros (Hf & Ht & Hd) Hnot.
  unfold printUpdate, printUpdate_Fetch, printUpdate_Template, printUpdate_Deploy,
    nilOrChanged, metav1.Equal.
  rewrite Hnot.
  destruct (Fetch status) as [f|]; [destruct (Fetch oldStatus) as [fo|]; [|done]|];
  (destruct (Template status) as [t|];
     [destruct (Template oldStatus) as [ot|]; [|done]|]);
  (destruct (Deploy status) as [d|];
     [destruct (Deploy oldStatus) as [od|]; [|done]|]);
  repeat match goal with
         | H : _ /\ _ |- _ =>
             let started := fresh in
             let updated := fresh in
             destruct H as [started updated]; rewrite ?started, ?updated;
             clear started updated
         end;
  rewrite ?Z.eqb_refl; reflexivity.
Qed.

(** X10.  [printUpdate] does not return after a failure line: when it
    returns, every "Fetch failed" is directly followed by
    "Fetch succeeded", every "Template failed" by "Template succeeded"
    and every "Deploy failed" by "Deploy progressing". *)
Theorem X10_printUpdate_failure_line_is_followed (oldStatus status : AppStatus) :
  let run := printUpdate oldStatus status in
  fst (run tailing) = go.Returned tt ->
  followedBy "Fetch failed" "Fetch succeeded" (output run) = true
  /\ followedBy "Template failed" "Template succeeded" (output run) = true
  /\ followedBy "Deploy failed" "Deploy progressing" (output run) = true.
Proof.
  cbn zeta. unfold output.
  remember (printUpdate oldStatus status tailing) as r eqn:Hr.
  unfold_update Hr. exec Hr.
  all: subst r; cbn; intros Hreturned; try discriminate Hreturned; repeat split.
Qed.

(** X11.  Each failure line and the line "App reconciled" closes the
    channel.  Started on an open channel, [printUpdate] returns only if
    it printed at most one such line, and the channel is then closed
    exactly if it printed one; it panics on the second such line with
    the close of a closed channel, and its only other panic is the nil
    pointer. *)
Theorem X11_printUpdate_stops_the_watch_once (oldStatus status : AppStatus) :
  let run := printUpdate oldStatus status in
  (fst (run tailing) = go.Returned tt ->
   (length (List.filter isStop (output run)) <= 1)%nat
   /\ stopperChan (snd (run tailing))
      = match List.filter isStop (output run) with
        | [] => go.ChanOpen
        | _ => go.ChanClosed
        end)
  /\ (forall p, fst (run tailing) = go.Panicked p ->
        (p = go.CloseOfClosedChannel
         /\ length (List.filter isStop (output run)) = 2%nat)
        \/ (p = go.NilPointerDereference
            /\ (length (List.filter isStop (output run)) <= 1)%nat)).
Proof.
  cbn zeta. unfold output.
  remember (printUpdate oldStatus status tailing) as r eqn:Hr.
  unfold_update Hr. exec Hr.
  all: subst r; cbn; split;
    [ intros Hreturned;
      first [discriminate Hreturned | split; [lia|reflexivity]]
    | intros p Hp;
      first [ discriminate Hp
            | injection Hp as <-;
              first [ left; split; [reflexivity|reflexivity]
                    | right; split; [reflexivity|lia] ] ] ].
Qed.

End printUpdate_more.

(** ** Runs of the tailer on concrete statuses *)

Section tailer_runs.
Import kcv1alpha1 app watch lines scenario scenario2.

(** X2 (witness): the status with a failed Fetch. *)
Lemma X2_printTillCurrent_error_iff_failure_line_witness :
  exists line,
    last (output (@printTillCurrent stages fetchOnly)) = Some line
    /\ errorBlock line = true
    /\ message line = "Fetch failed"
    /\ messageBlock line = "kapp: Error: timed out".
Proof.
  destruct (X2_printTillCurrent_error_iff_failure_line (names := stages) fetchOnly)
    as (returned & _).
  destruct (returned fetchStage (go.Errorf "kapp: Error: timed out") eq_refl)
    as (line & Hlast & Hmarked & Hstage).
  exists line. split; [exact Hlast|]. split; [exact Hmarked|].
  destruct Hstage as [(Hmessage & f & Hfetch & _ & _ & Hblock)
                     | [(Hmessage & _) | (Hmessage & _)]].
  - split; [exact Hmessage|]. injection Hfetch as <-. exact Hblock.
  - exfalso. vm_compute in Hlast. injection Hlast as <-. discriminate Hmessage.
  - exfalso. vm_compute in Hlast. injection Hlast as <-. discriminate Hmessage.
Defined.

(** X3 (witness): a status with a Template stage only. *)
Lemma X3_printTillCurrent_panics_iff_template_without_fetch_witness :
  exists p, fst (@printTillCurrent stages templateOnly tailing) = go.Panicked p.
Proof.
  apply (X3_printTillCurrent_panics_iff_template_without_fetch (names := stages)).
  split; [reflexivity | discriminate].
Defined.


(** X5 (witness): a Fetch that succeeded at second 110 after a start at
    second 100. *)
Lemma X5_fetch_line_is_one_of_three_witness :
  reports "Fetch succeeded" (@printTillCurrent stages deployed) = true.
Proof.
  destruct (X5_fetch_line_is_one_of_three (names := stages) deployed
              (stage 0 100 110 "fetched" "") eq_refl)
    as (_ & succeeded & _).
  apply succeeded. split; [reflexivity | vm_compute; discriminate].
Defined.

(** X6 (witness): the reconciled status. *)
Lemma X6_deploy_succeeded_means_reconciled_witness :
  hasReconciled deployed = true
  /\ fst (@printTillCurrent stages deployed tailing)
     = go.Returned (@reconciled stages, None).
Proof.
  apply (X6_deploy_succeeded_means_reconciled (names := stages)). reflexivity.
Defined.

(** X7 (witness): two statuses that differ in the start time and the
    standard output of Template, in the description and in the
    counters. *)
Lemma X7_printTillCurrent_reads_witness :
  @printTillCurrent stages fetchedBefore tailing
  = @printTillCurrent stages fetchedBefore' tailing.
Proof.
  apply (X7_printTillCurrent_reads (names := stages)). reflexivity.
Defined.

(** X8 (witness): two updates that differ in the standard error of
    Fetch. *)
Lemma X8_printUpdate_reads_witness :
  printUpdate unset fetchJustFailed tailing
  = printUpdate unset fetchJustFailed' tailing.
Proof. apply X8_printUpdate_reads; reflexivity. Defined.

(** X9 (witness): an update that repeats the status. *)
Lemma X9_printUpdate_is_silent_without_change_witness :
  printUpdate fetchedBefore fetchedBefore tailing = (go.Returned tt, tailing).
Proof.
  apply X9_printUpdate_is_silent_without_change; [|reflexivity].
  unfold unchanged, sameTimes. simpl. repeat split.
Defined.

(** X10 (witness): the update in which Fetch has just failed. *)
Lemma X10_printUpdate_failure_line_is_followed_witness :
  followedBy "Fetch failed" "Fetch succeeded" (output (printUpdate unset fetchJustFailed))
  = true.
Proof.
  apply (X10_printUpdate_failure_line_is_followed unset fetchJustFailed).
  reflexivity.
Defined.

(** X11 (witness): the same update closes the channel once. *)
Lemma X11_printUpdate_stops_the_watch_once_witness :
  stopperChan (snd (printUpdate unset fetchJustFailed tailing)) = go.ChanClosed.
Proof.
  destruct (X11_printUpdate_stops_the_watch_once unset fetchJustFailed)
    as (returned & _).
  destruct (returned eq_refl) as (_ & closed). exact closed.
Defined.

End tailer_runs.

(** ** The hooks and the adapter's own copy *)

Section hooks_keep_the_model.
Import pkgingv1alpha1 pkgrepository persisted.
Context {C : Type} {client : kcclient.Interface C} {names : FinalizerNames}.

Lemma keepsModel_refl (a : CRDApp C) : keepsModel a a.
Proof. repeat split. exists []. by rewrite app_nil_r. Qed.

Lemma keepsModel_trans (a a' a'' : CRDApp C) :
  keepsModel a a' -> keepsModel a' a'' -> keepsModel a a''.
Proof.
  intros (Hm & Ha & e & He) (Hm' & Ha' & e' & He').
  repeat split; [congruence..|]. exists (e ++ e')%list.
  by rewrite He', He, app_assoc.
Qed.

Lemma keepsModel_log_Info (msg : string) (keysAndValues : list string) (a : CRDApp C) :
  keepsModel a (log_Info msg keysAndValues a).
Proof. repeat split. by eexists. Qed.

Lemma keepsModel_withClient (a : CRDApp C) (c : C) : keepsModel a (withClient a c).
Proof. repeat split. exists []. cbn. by rewrite app_nil_r. Qed.

Lemma keepsModel_updatePackageRepository
    (updateFunc : PackageRepository -> PackageRepository) (a : CRDApp C) :
  keepsModel a (snd (updatePackageRepository updateFunc a)).
Proof.
  unfold updatePackageRepository.
  set (started := log_Info _ _ a).
  apply (keepsModel_trans a started); [apply keepsModel_log_Info|].
  destruct (kcclient.Get _ _ _) as [[err|existing] c]; cbn [snd];
    [apply keepsModel_withClient|].
  destruct (kcclient.Update _ _ _) as [[err|written] c']; cbn [snd];
    apply keepsModel_withClient.
Qed.

Lemma keepsModel_updateStatusOnce (a : CRDApp C) :
  keepsModel a (snd (updateStatusOnce a)).
Proof.
  unfold updateStatusOnce.
  destruct (kcclient.Get _ _ _) as [[err|existing] c]; cbn [snd];
    [apply keepsModel_withClient|].
  destruct (kcclient.UpdateStatus _ _ _) as [[err|written] c']; cbn [snd];
    apply keepsModel_withClient.
Qed.

Lemma keepsModel_updateStatus_loop (remaining : nat) (lastErr : option go.error)
    (a : CRDApp C) :
  keepsModel a (snd (updateStatus_loop remaining lastErr a)).
Proof.
  revert lastErr a. induction remaining as [|remaining IH]; intros lastErr a;
    [apply keepsModel_refl|].
  cbn [updateStatus_loop].
  pose proof (keepsModel_updateStatusOnce a) as Honce.
  destruct (updateStatusOnce a) as [[err|] a']; cbn [snd] in *; [|done].
  eapply keepsModel_trans; [exact Honce | apply IH].
Qed.

Lemma hooks_keepModel (desc : string) (a : CRDApp C) :
  keepsModel a (snd (blockDeletion a))
  /\ keepsModel a (snd (unblockDeletion a))
  /\ keepsModel a (snd (updateStatus desc a)).
Proof.
  split; [|split].
  - unfold blockDeletion. destruct (containsString _ _); [apply keepsModel_refl|].
    eapply keepsModel_trans;
      [apply keepsModel_log_Info | apply keepsModel_updatePackageRepository].
  - unfold unblockDeletion.
    eapply keepsModel_trans;
      [apply keepsModel_log_Info | apply keepsModel_updatePackageRepository].
  - unfold updateStatus.
    eapply keepsModel_trans;
      [apply keepsModel_log_Info | apply keepsModel_updateStatus_loop].
Qed.

(** X12.  No hook refreshes the adapter: after [blockDeletion],
    [unblockDeletion] and [updateStatus], whatever the client answered,
    the adapter holds the same copy of the resource and the same engine
    status as before, and its log has only grown at the end. *)
Theorem X12_hooks_keep_the_adapters_copy (desc : string) (a : CRDApp C) :
  keepsModel a (snd (blockDeletion a))
  /\ keepsModel a (snd (unblockDeletion a))
  /\ keepsModel a (snd (updateStatus desc a)).
Proof. exact (hooks_keepModel desc a). Qed.

End hooks_keep_the_model.

(** ** The hooks against the in-memory store *)

Section store_calls.
Import pkgingv1alpha1 pkgrepository persisted.

(** A call is recorded, and either a simulated error answers it and the
    objects stay, or the handler answers it. *)
Lemma Invokes_cases (action : fake.Action) handle (c : fake.Clientset) :
  fake.actions (snd (fake.Invokes action handle c)) = (fake.actions c ++ [action])%list
  /\ ((exists err, fst (fake.Invokes action handle c) = inl err
                   /\ fake.tracker (snd (fake.Invokes action handle c)) = fake.tracker c)
      \/ (fst (fake.Invokes action handle c) = fst (handle (fake.tracker c))
          /\ fake.tracker (snd (fake.Invokes action handle c))
             = snd (handle (fake.tracker c)))).
Proof.
  unfold fake.Invokes.
  destruct (fake.reactions c) as [|[err|] rest];
    try (destruct (handle (fake.tracker c)) as [answer objects]); cbn; eauto.
Qed.

Lemma get_cases (namespace name : string) (c : fake.Clientset) :
  fake.actions (snd (fake.get namespace name c))
  = (fake.actions c ++ [fake.GetAction namespace name])%list
  /\ fake.tracker (snd (fake.get namespace name c)) = fake.tracker c
  /\ (forall object, fst (fake.get namespace name c) = inr object ->
                     fake.tracker c !! (namespace, name) = Some object)
  /\ (fake.tracker c !! (namespace, name) = None ->
      exists err, fst (fake.get namespace name c) = inl err).
Proof.
  unfold fake.get.
  destruct (Invokes_cases (fake.GetAction namespace name)
              (fun objects =>
                 match objects !! (namespace, name) with
                 | Some object => (inr object, objects)
                 | None => (inl fake.NotFound, objects)
                 end) c) as (Hactions & [(err & Hanswer & Hobjects) | (Hanswer & Hobjects)]).
  - rewrite Hactions, Hobjects, Hanswer. repeat split; [discriminate|eauto].
  - rewrite Hactions, Hobjects, Hanswer.
    destruct (fake.tracker c !! (namespace, name)) as [stored|]; cbn;
      repeat split; try congruence; eauto.
Qed.

(** Both writes replace the object under its name, if there is one. *)
Lemma replace_cases (action : fake.Action) (namespace : string)
    (object : PackageRepository) (c : fake.Clientset) :
  let r := fake.Invokes action (fake.replace namespace object) c in
  fake.actions (snd r) = (fake.actions c ++ [action])%list
  /\ ((exists err, fst r = inl err /\ fake.tracker (snd r) = fake.tracker c)
      \/ (fst r = inr object
          /\ is_Some (fake.tracker c !! (namespace, Name object))
          /\ fake.tracker (snd r)
             = <[(namespace, Name object) := object]> (fake.tracker c))).
Proof.
  cbn zeta.
  destruct (Invokes_cases action (fake.replace namespace object) c)
    as (Hactions & [(err & Hanswer & Hobjects) | (Hanswer & Hobjects)]).
  - split; [done|]. left. eauto.
  - split; [done|]. rewrite Hanswer, Hobjects. unfold fake.replace.
    destruct (fake.tracker c !! (namespace, Name object)) as [stored|] eqn:Hstored;
      cbn; [right|left]; eauto.
Qed.

End store_calls.

Section status_persistence.
Import pkgingv1alpha1 pkgrepository persisted.

Lemma holds_inv (a a' : CRDApp fake.Clientset) (repo : PackageRepository) :
  holds a repo -> pkgrModel a' = pkgrModel a ->
  fake.tracker (appClient a') = fake.tracker (appClient a) ->
  holds a' repo.
Proof.
  unfold holds, key. intros (Hget & Hns & Hname) -> ->. done.
Qed.

(** One attempt either fails and leaves the objects alone, or writes
    the stored resource back with the engine's status. *)
Lemma updateStatusOnce_holds (a : CRDApp fake.Clientset) (repo : PackageRepository) :
  holds a repo ->
  let r := updateStatusOnce a in
  (fst r = None
   /\ fake.tracker (appClient (snd r))
      = <[key a := withStatus repo (statusOf (app a))]> (fake.tracker (appClient a)))
  \/ (fst r ≠ None
      /\ fake.tracker (appClient (snd r)) = fake.tracker (appClient a)).
Proof.
  intros (Hstored & Hns & Hname). cbn zeta. unfold updateStatusOnce, key in *.
  cbn [kcclient.Get kcclient.UpdateStatus fake.clientset].
  destruct (get_cases (Namespace (pkgrModel a)) (Name (pkgrModel a)) (appClient a))
    as (_ & Hobjects & Hfound & _).
  destruct (fake.get _ _ _) as [[err|existing] c]; cbn [fst snd] in *.
  - right. split; [discriminate|exact Hobjects].
  - specialize (Hfound existing eq_refl).
    assert (existing = repo) as -> by congruence.
    unfold fake.updateStatus.
    destruct (replace_cases
                (fake.UpdateStatusAction
                   (Namespace (withStatus repo (statusOf (app a))))
                   (withStatus repo (statusOf (app a))))
                (Namespace (withStatus repo (statusOf (app a))))
                (withStatus repo (statusOf (app a))) c)
      as (_ & [(err & Hanswer & Hsame) | (Hanswer & _ & Hwritten)]).
    + unfold statusOf in *.
      destruct (fake.Invokes _ _ c) as [[err'|written] c']; cbn [fst snd] in *;
        [|discriminate].
      right. split; [discriminate|]. cbn. congruence.
    + unfold statusOf in *.
      destruct (fake.Invokes _ _ c) as [[err'|written] c']; cbn [fst snd] in *;
        [discriminate|].
      left. split; [done|]. cbn [appClient withClient].
      rewrite Hwritten, Hobjects. cbn. by rewrite Hns, Hname.
Qed.

Lemma updateStatus_loop_holds (remaining : nat) (lastErr : option go.error)
    (a : CRDApp fake.Clientset) (repo : PackageRepository) :
  holds a repo -> (remaining = 0%nat -> lastErr ≠ None) ->
  let r := updateStatus_loop remaining lastErr a in
  (fst r = None
   /\ fake.tracker (appClient (snd r))
      = <[key a := withStatus repo (statusOf (app a))]> (fake.tracker (appClient a)))
  \/ (fst r ≠ None
      /\ fake.tracker (appClient (snd r)) = fake.tracker (appClient a)).
Proof.
  revert lastErr a. induction remaining as [|remaining IH]; intros lastErr a Hholds Hlast.
  - right. split; [by apply Hlast | done].
  - cbn zeta. cbn [updateStatus_loop].
    pose proof (updateStatusOnce_holds a repo Hholds) as Honce.
    destruct (keepsModel_updateStatusOnce a) as (Hmodel & Happ & _).
    destruct (updateStatusOnce a) as [[err|] a']; cbn [fst snd] in *.
    + destruct Honce as [[Hnone _] | [_ Hsame]]; [discriminate|].
      assert (holds a' repo) as Hholds' by (by apply (holds_inv a)).
      destruct (IH (Some err) a' Hholds' ltac:(discriminate)) as [[Hr Ht] | [Hr Ht]];
        [left | right]; (split; [done|]);
        rewrite Ht, Hsame; unfold key; by rewrite ?Hmodel, ?Happ.
    + destruct Honce as [[_ Hwritten] | [Hsome _]]; [by left | done].
Qed.

(** X13.  Against a store that holds the resource, and whatever answers
    are simulated, [updateStatus] is all or nothing: when it returns nil
    the stored resource is the one that was stored with its status
    replaced by the engine's, its finalizers and the rest of its
    metadata as they were in the store (not as in the adapter's copy);
    when it returns an error the store holds what it held. *)
Theorem X13_updateStatus_is_all_or_nothing (desc : string)
    (a : CRDApp fake.Clientset) (repo : PackageRepository) :
  holds a repo ->
  let r := updateStatus desc a in
  (fst r = None ->
   fake.tracker (appClient (snd r))
   = <[key a := withStatus repo (statusOf (app a))]> (fake.tracker (appClient a)))
  /\ (fst r ≠ None ->
      fake.tracker (appClient (snd r)) = fake.tracker (appClient a)).
Proof.
  intros Hholds. cbn zeta. unfold updateStatus.
  set (started := log_Info _ _ a).
  assert (holds started repo) as Hstarted by exact Hholds.
  destruct (updateStatus_loop_holds 5 None started repo Hstarted ltac:(lia))
    as [[Hr Ht] | [Hr Ht]]; split; intros Hresult; try done.
Qed.

End status_persistence.

Section finalizer_persistence.
Import pkgingv1alpha1 pkgrepository persisted.
Context {names : FinalizerNames}.

(** One read-modify-write cycle, whatever answers are simulated: it
    fails and leaves the objects alone, or it replaces the stored
    resource by the updated one. *)
Lemma updatePackageRepository_holds (a : CRDApp fake.Clientset)
    (repo : PackageRepository) (updateFunc : PackageRepository -> PackageRepository) :
  holds a repo ->
  Namespace (updateFunc repo) = Namespace repo ->
  Name (updateFunc repo) = Name repo ->
  let r := updatePackageRepository updateFunc a in
  (fst r = None
   /\ fake.tracker (appClient (snd r))
      = <[key a := updateFunc repo]> (fake.tracker (appClient a)))
  \/ (fst r ≠ None
      /\ fake.tracker (appClient (snd r)) = fake.tracker (appClient a)).
Proof.
  intros (Hstored & Hns & Hname) Hns' Hname'. cbn zeta.
  unfold updatePackageRepository, key in *.
  cbn [kcclient.Get kcclient.Update fake.clientset log_Info pkgrModel appClient].
  destruct (get_cases (Namespace (pkgrModel a)) (Name (pkgrModel a)) (appClient a))
    as (_ & Hobjects & Hfound & _).
  destruct (fake.get _ _ _) as [[err|existing] c]; cbn [fst snd] in *.
  - right. split; [discriminate|exact Hobjects].
  - specialize (Hfound existing eq_refl).
    assert (existing = repo) as -> by congruence.
    unfold fake.update.
    destruct (replace_cases
                (fake.UpdateAction (Namespace (updateFunc repo)) (updateFunc repo))
                (Namespace (updateFunc repo)) (updateFunc repo) c)
      as (_ & [(err & Hanswer & Hsame) | (Hanswer & _ & Hwritten)]).
    + destruct (fake.Invokes _ _ c) as [[err'|written] c']; cbn [fst snd] in *;
        [|discriminate].
      right. split; [discriminate|]. cbn. congruence.
    + destruct (fake.Invokes _ _ c) as [[err'|written] c']; cbn [fst snd] in *;
        [discriminate|].
      left. split; [done|]. cbn [appClient withClient].
      rewrite Hwritten, Hobjects, Hns', Hname', Hns, Hname. done.
Qed.

Lemma updatePackageRepository_missing (a : CRDApp fake.Clientset)
    (updateFunc : PackageRepository -> PackageRepository) :
  missing a ->
  let r := updatePackageRepository updateFunc a in
  fst r ≠ None /\ fake.tracker (appClient (snd r)) = fake.tracker (appClient a).
Proof.
  unfold missing, key. intros Hmissing. cbn zeta. unfold updatePackageRepository.
  cbn [kcclient.Get kcclient.Update fake.clientset log_Info pkgrModel appClient].
  destruct (get_cases (Namespace (pkgrModel a)) (Name (pkgrModel a)) (appClient a))
    as (_ & Hobjects & _ & Hnone).
  destruct (Hnone Hmissing) as [err Herr].
  destruct (fake.get _ _ _) as [[err'|existing] c]; cbn [fst snd] in *;
    [|discriminate].
  split; [discriminate|exact Hobjects].
Qed.

Lemma updateStatus_loop_missing (remaining : nat) (lastErr : option go.error)
    (a : CRDApp fake.Clientset) :
  missing a -> (remaining = 0%nat -> lastErr ≠ None) ->
  let r := updateStatus_loop remaining lastErr a in
  fst r ≠ None /\ fake.tracker (appClient (snd r)) = fake.tracker (appClient a).
Proof.
  unfold missing, key.
  revert lastErr a. induction remaining as [|remaining IH]; intros lastErr a Hmissing Hlast.
  - split; [by apply Hlast | done].
  - cbn zeta. cbn [updateStatus_loop].
    destruct (keepsModel_updateStatusOnce a) as (Hmodel & _ & _).
    unfold updateStatusOnce in *.
    cbn [kcclient.Get kcclient.UpdateStatus fake.clientset] in *.
    destruct (get_cases (Namespace (pkgrModel a)) (Name (pkgrModel a)) (appClient a))
      as (_ & Hobjects & _ & Hnone).
    destruct (Hnone Hmissing) as [err Herr].
    destruct (fake.get _ _ _) as [[err'|existing] c]; cbn [fst snd] in *;
      [|discriminate].
    destruct (IH (Some (go.Errorf1 "Fetching PackageRepository: %s" err'))
                (withClient a c)) as (Hr & Ht).
    + cbn. by rewrite Hobjects.
    + discriminate.
    + split; [exact Hr|]. rewrite Ht. exact Hobjects.
Qed.

(** X14.  The hooks write under one key only.  When the store holds the
    resource under the adapter's key, or holds nothing there, every
    object under another key is the same after [blockDeletion],
    [unblockDeletion] and [updateStatus], whatever answers are
    simulated. *)
Theorem X14_hooks_leave_other_resources_alone (desc : string)
    (a : CRDApp fake.Clientset) (other : string * string) :
  (missing a \/ exists repo, holds a repo) ->
  other ≠ key a ->
  fake.tracker (appClient (snd (blockDeletion a))) !! other
  = fake.tracker (appClient a) !! other
  /\ fake.tracker (appClient (snd (unblockDeletion a))) !! other
     = fake.tracker (appClient a) !! other
  /\ fake.tracker (appClient (snd (updateStatus desc a))) !! other
     = fake.tracker (appClient a) !! other.
Proof.
  intros Hstore Hother.
  assert (forall updateFunc : PackageRepository -> PackageRepository,
             (forall r, Namespace (updateFunc r) = Namespace r
                        /\ Name (updateFunc r) = Name r) ->
             forall msg,
               fake.tracker
                 (appClient (snd (updatePackageRepository updateFunc
                                    (log_Info msg [] a)))) !! other
               = fake.tracker (appClient a) !! other) as Hcycle.
  { intros updateFunc Hmeta msg. set (started := log_Info msg [] a).
    destruct Hstore as [Hmissing | [repo Hholds]].
    - assert (missing started) as Hstarted by exact Hmissing.
      destruct (updatePackageRepository_missing started updateFunc Hstarted)
        as (_ & ->). done.
    - assert (holds started repo) as Hstarted by exact Hholds.
      destruct (updatePackageRepository_holds started repo updateFunc Hstarted
                  (proj1 (Hmeta repo)) (proj2 (Hmeta repo)))
        as [[_ ->] | [_ ->]]; [|done].
      by apply lookup_insert_ne. }
  split; [|split].
  - unfold blockDeletion. destruct (containsString _ _); [done|].
    apply Hcycle. intros r. by destruct (negb _).
  - unfold unblockDeletion. apply Hcycle. done.
  - unfold updateStatus. set (started := log_Info _ _ a).
    destruct Hstore as [Hmissing | [repo Hholds]].
    + assert (missing started) as Hstarted by exact Hmissing.
      destruct (updateStatus_loop_missing 5 None started Hstarted ltac:(lia))
        as (_ & ->). done.
    + assert (holds started repo) as Hstarted by exact Hholds.
      destruct (updateStatus_loop_holds 5 None started repo Hstarted ltac:(lia))
        as [[_ ->] | [_ ->]]; [|done].
      by apply lookup_insert_ne.
Qed.

End finalizer_persistence.

Section missing_resource.
Import pkgingv1alpha1 pkgrepository persisted.
Context {names : FinalizerNames}.

Lemma get_missing (namespace name : string) (c : fake.Clientset) :
  fake.tracker c !! (namespace, name) = None -> fake.reactions c = [] ->
  fake.get namespace name c
  = (inl fake.NotFound,
     {| fake.tracker := fake.tracker c; fake.reactions := [];
        fake.actions := fake.actions c ++ [fake.GetAction namespace name] |}).
Proof.
  intros Hnone Hscript. unfold fake.get, fake.Invokes. by rewrite Hscript, Hnone.
Qed.

Lemma updateStatus_loop_S {C} {client : kcclient.Interface C} (remaining : nat)
    (lastErr : option go.error) (a : CRDApp C) :
  updateStatus_loop (S remaining) lastErr a
  = (let '(lastErr, a) := updateStatusOnce a in
     match lastErr with
     | None => (None, a)
     | Some _ => updateStatus_loop remaining lastErr a
     end).
Proof. reflexivity. Qed.

Lemma updateStatus_loop_not_found (remaining : nat) (lastErr : go.error)
    (a : CRDApp fake.Clientset) :
  missing a -> fake.reactions (appClient a) = [] ->
  (remaining ≠ 0%nat ->
   lastErr = go.Errorf1 "Fetching PackageRepository: %s" fake.NotFound) ->
  updateStatus_loop remaining (Some lastErr) a
  = (Some lastErr,
     withClient a
       {| fake.tracker := fake.tracker (appClient a); fake.reactions := [];
          fake.actions :=
            fake.actions (appClient a)
              ++ replicate remaining
                   (fake.GetAction (Namespace (pkgrModel a)) (Name (pkgrModel a))) |}).
Proof.
  unfold missing, key.
  revert a. induction remaining as [|remaining IH]; intros a Hmissing Hscript Hlast.
  - cbn. rewrite app_nil_r. destruct a as [st model entries [objects script calls]].
    cbn in *. by subst.
  - rewrite updateStatus_loop_S. unfold updateStatusOnce.
    cbn [kcclient.Get kcclient.UpdateStatus fake.clientset].
    rewrite (get_missing _ _ _ Hmissing Hscript).
    specialize (Hlast ltac:(done)). subst lastErr.
    cbv beta iota zeta.
    rewrite IH; [|done|done|done].
    cbn. by rewrite <- app_assoc.
Qed.

(** X15.  When the store holds nothing under the adapter's key and
    simulates no answer, the finalizer hooks return the NotFound of the
    read wrapped as "Updating PackageRepository: %s", [updateStatus]
    returns it wrapped as "Fetching PackageRepository: %s" after exactly
    five reads, and no hook makes a write. *)
Theorem X15_hooks_on_a_missing_resource (desc : string) (a : CRDApp fake.Clientset) :
  missing a -> fake.reactions (appClient a) = [] ->
  (containsString (Finalizers (pkgrModel a)) deleteFinalizerName = false ->
   fst (blockDeletion a)
   = Some (go.Errorf1 "Updating PackageRepository: %s" fake.NotFound)
   /\ callsSince (appClient a) (appClient (snd (blockDeletion a)))
      = [fake.GetAction (Namespace (pkgrModel a)) (Name (pkgrModel a))])
  /\ fst (unblockDeletion a)
     = Some (go.Errorf1 "Updating PackageRepository: %s" fake.NotFound)
  /\ callsSince (appClient a) (appClient (snd (unblockDeletion a)))
     = [fake.GetAction (Namespace (pkgrModel a)) (Name (pkgrModel a))]
  /\ fst (updateStatus desc a)
     = Some (go.Errorf1 "Fetching PackageRepository: %s" fake.NotFound)
  /\ callsSince (appClient a) (appClient (snd (updateStatus desc a)))
     = replicate 5 (fake.GetAction (Namespace (pkgrModel a)) (Name (pkgrModel a))).
Proof.
  unfold missing, key. intros Hmissing Hscript.
  assert (forall (updateFunc : PackageRepository -> PackageRepository) msg,
             let r := updatePackageRepository updateFunc (log_Info msg [] a) in
             fst r = Some (go.Errorf1 "Updating PackageRepository: %s" fake.NotFound)
             /\ callsSince (appClient a) (appClient (snd r))
                = [fake.GetAction (Namespace (pkgrModel a)) (Name (pkgrModel a))])
    as Hcycle.
  { intros updateFunc msg. cbn zeta. unfold updatePackageRepository.
    cbn [kcclient.Get fake.clientset log_Info pkgrModel appClient].
    rewrite (get_missing _ _ _ Hmissing Hscript). cbn.
    unfold callsSince. cbn. by rewrite drop_app_length. }
  split; [|split; [|split; [|split]]].
  - intros Habsent. unfold blockDeletion. rewrite Habsent. apply Hcycle.
  - apply Hcycle.
  - apply Hcycle.
  - unfold updateStatus, log_Info.
    rewrite updateStatus_loop_S. unfold updateStatusOnce.
    cbn [kcclient.Get kcclient.UpdateStatus fake.clientset pkgrModel appClient].
    rewrite (get_missing _ _ _ Hmissing Hscript).
    cbv beta iota zeta.
    rewrite updateStatus_loop_not_found; done.
  - unfold updateStatus, log_Info.
    rewrite updateStatus_loop_S. unfold updateStatusOnce.
    cbn [kcclient.Get kcclient.UpdateStatus fake.clientset pkgrModel appClient].
    rewrite (get_missing _ _ _ Hmissing Hscript).
    cbv beta iota zeta.
    rewrite updateStatus_loop_not_found; [|done..].
    unfold callsSince. cbn. rewrite <- app_assoc. by rewrite drop_app_length.
Qed.

End missing_resource.

Section finalizer_composition.
Import pkgingv1alpha1 pkgrepository persisted cluster.
Context {names : FinalizerNames}.

Lemma unblockDeletion_stored (a : CRDApp fake.Clientset) (repo : PackageRepository) :
  stored a repo ->
  fst (unblockDeletion a) = None
  /\ exists repo', stored (snd (unblockDeletion a)) repo'
                   /\ Finalizers repo' = withoutBoth (Finalizers repo).
Proof.
  intros Hstored. unfold unblockDeletion.
  set (updateFunc := fun app : PackageRepository => withFinalizers _ _).
  set (started := log_Info _ _ a).
  assert (stored started repo) as Hstarted by exact Hstored.
  destruct (updatePackageRepository_stored started repo updateFunc Hstarted
              eq_refl eq_refl) as (Herr & Hafter & _).
  split; [exact Herr|]. exists (updateFunc repo). split; [exact Hafter|].
  subst updateFunc. cbn [withFinalizers Finalizers Meta].
  apply removeString_twice.
Qed.

Lemma blockDeletion_stored (a : CRDApp fake.Clientset) (repo : PackageRepository) :
  stored a repo ->
  fst (blockDeletion a) = None
  /\ exists repo', stored (snd (blockDeletion a)) repo'
                   /\ (Finalizers repo' = Finalizers repo
                       \/ Finalizers repo'
                          = (Finalizers repo ++ [deleteFinalizerName])%list).
Proof.
  intros Hstored. unfold blockDeletion.
  destruct (containsString (Finalizers (pkgrModel a)) deleteFinalizerName);
    [split; [done|]; exists repo; auto|].
  set (updateFunc := fun app : PackageRepository => if negb _ then _ else _).
  set (started := log_Info _ _ a).
  assert (stored started repo) as Hstarted by exact Hstored.
  assert (Namespace (updateFunc repo) = Namespace repo
          /\ Name (updateFunc repo) = Name repo) as [Hns Hname].
  { subst updateFunc. cbn beta.
    by destruct (containsString (Finalizers repo) deleteFinalizerName). }
  destruct (updatePackageRepository_stored started repo updateFunc Hstarted Hns Hname)
    as (Herr & Hafter & _).
  split; [exact Herr|]. exists (updateFunc repo). split; [exact Hafter|].
  subst updateFunc. cbn beta.
  destruct (containsString (Finalizers repo) deleteFinalizerName); cbn; auto.
Qed.

Lemma withoutBoth_app_name (finalizerList : list string) :
  withoutBoth (finalizerList ++ [deleteFinalizerName]) = withoutBoth finalizerList.
Proof.
  unfold withoutBoth. rewrite List.filter_app. cbn.
  rewrite String.eqb_refl. cbn. apply app_nil_r.
Qed.

Lemma withoutBoth_idemp (finalizerList : list string) :
  withoutBoth (withoutBoth finalizerList) = withoutBoth finalizerList.
Proof.
  unfold withoutBoth. induction finalizerList as [|item rest IH]; [done|].
  cbn. destruct (negb _ && negb _) eqn:Hkeep; [|done].
  cbn. rewrite Hkeep. by rewrite IH.
Qed.

Lemma withoutBoth_id (finalizerList : list string) :
  ~ In deleteFinalizerName finalizerList ->
  ~ In deletePrevFinalizerName finalizerList ->
  withoutBoth finalizerList = finalizerList.
Proof.
  unfold withoutBoth. induction finalizerList as [|item rest IH]; [done|].
  cbn. intros Hcur Hprev.
  destruct (String.eqb_spec item deleteFinalizerName) as [->|_]; [tauto|].
  destruct (String.eqb_spec item deletePrevFinalizerName) as [->|_]; [tauto|].
  cbn. rewrite IH; tauto.
Qed.

(** X16.  [unblockDeletion] undoes [blockDeletion] and repeats without
    effect.  On a stored resource, [blockDeletion] followed by
    [unblockDeletion] leaves the starting list without the two finalizer
    names, which is the starting list itself when it held neither, and
    a second [unblockDeletion] leaves what the first one left. *)
Theorem X16_unblockDeletion_undoes_blockDeletion (a : CRDApp fake.Clientset)
    (repo : PackageRepository) :
  stored a repo ->
  (let blocked := blockDeletion a in
   let unblocked := unblockDeletion (snd blocked) in
   fst blocked = None /\ fst unblocked = None
   /\ exists repo',
        stored (snd unblocked) repo'
        /\ Finalizers repo' = withoutBoth (Finalizers repo)
        /\ (~ In deleteFinalizerName (Finalizers repo) ->
            ~ In deletePrevFinalizerName (Finalizers repo) ->
            Finalizers repo' = Finalizers repo))
  /\ (let once := unblockDeletion a in
      let twice := unblockDeletion (snd once) in
      fst once = None /\ fst twice = None
      /\ exists repo' repo'',
           stored (snd once) repo' /\ stored (snd twice) repo''
           /\ Finalizers repo'' = Finalizers repo').
Proof.
  intros Hstored. split; cbn zeta.
  - destruct (blockDeletion_stored a repo Hstored) as (Hblocked & repo1 & Hstored1 & Hlist1).
    destruct (unblockDeletion_stored _ repo1 Hstored1) as (Hunblocked & repo2 & Hstored2 & Hlist2).
    split; [done|]. split; [done|]. exists repo2. split; [done|].
    assert (Finalizers repo2 = withoutBoth (Finalizers repo)) as Hlist.
    { rewrite Hlist2. destruct Hlist1 as [-> | ->]; [done|apply withoutBoth_app_name]. }
    split; [done|]. intros Hcur Hprev. rewrite Hlist. by apply withoutBoth_id.
  - destruct (unblockDeletion_stored a repo Hstored) as (Honce & repo1 & Hstored1 & Hlist1).
    destruct (unblockDeletion_stored _ repo1 Hstored1) as (Htwice & repo2 & Hstored2 & Hlist2).
    split; [done|]. split; [done|]. exists repo1, repo2. split; [done|]. split; [done|].
    rewrite Hlist2, Hlist1. apply withoutBoth_idemp.
Qed.

(** X17.  [blockDeletion] trusts the adapter's copy.  On an adapter
    whose copy lists the finalizer, [blockDeletion] after
    [unblockDeletion] returns nil without a call, and the stored list
    stays without the name. *)
Theorem X17_blockDeletion_trusts_the_adapters_copy (a : CRDApp fake.Clientset)
    (repo : PackageRepository) :
  containsString (Finalizers (pkgrModel a)) deleteFinalizerName = true ->
  stored a repo ->
  let unblocked := snd (unblockDeletion a) in
  fst (unblockDeletion a) = None
  /\ blockDeletion unblocked = (None, unblocked)
  /\ exists repo', stored unblocked repo'
                   /\ ~ In deleteFinalizerName (Finalizers repo').
Proof.
  intros Hcopy Hstored. cbn zeta.
  destruct (unblockDeletion_stored a repo Hstored) as (Herr & repo' & Hstored' & Hlist).
  destruct (hooks_keepModel "" a) as (_ & (Hmodel & _) & _).
  split; [done|]. split.
  - apply blockDeletion_present. by rewrite Hmodel.
  - exists repo'. split; [done|]. rewrite Hlist. unfold withoutBoth.
    rewrite List.filter_In, andb_true_iff, !negb_true_iff, !String.eqb_neq. tauto.
Qed.

End finalizer_composition.

Section hook_calls.
Import pkgingv1alpha1 pkgrepository persisted.
Context {names : FinalizerNames}.

Lemma callsSince_app (before after : fake.Clientset) (calls : list fake.Action) :
  fake.actions after = (fake.actions before ++ calls)%list ->
  callsSince before after = calls.
Proof. unfold callsSince. intros ->. apply drop_app_length. Qed.

(** A read-modify-write cycle is a read, followed by an update if the
    read went through. *)
Lemma updatePackageRepository_calls
    (updateFunc : PackageRepository -> PackageRepository) (a : CRDApp fake.Clientset) :
  exists calls,
    fake.actions (appClient (snd (updatePackageRepository updateFunc a)))
    = (fake.actions (appClient a) ++ calls)%list
    /\ ((exists read, isGet read = true /\ calls = [read])
        \/ (exists read write, isGet read = true /\ isUpdate write = true
                               /\ calls = [read; write])).
Proof.
  unfold updatePackageRepository.
  cbn [kcclient.Get kcclient.Update fake.clientset log_Info pkgrModel appClient].
  destruct (get_cases (Namespace (pkgrModel a)) (Name (pkgrModel a)) (appClient a))
    as (Hread & _).
  destruct (fake.get _ _ _) as [[err|existing] c]; cbn [fst snd] in *.
  - eexists. split; [exact Hread|]. left. eexists. split; [|reflexivity]. reflexivity.
  - unfold fake.update.
    destruct (replace_cases
                (fake.UpdateAction (Namespace (updateFunc existing)) (updateFunc existing))
                (Namespace (updateFunc existing)) (updateFunc existing) c)
      as (Hwrite & _).
    destruct (fake.Invokes _ _ c) as [[err'|written] c']; cbn [fst snd] in *;
      (eexists; split;
       [cbn; rewrite Hwrite, Hread, <- app_assoc; reflexivity
       |right; do 2 eexists; split; [|split]; [| |reflexivity]; reflexivity]).
Qed.

Lemma updateStatusOnce_calls (a : CRDApp fake.Clientset) :
  exists calls,
    fake.actions (appClient (snd (updateStatusOnce a)))
    = (fake.actions (appClient a) ++ calls)%list
    /\ ((exists read, isGet read = true /\ calls = [read])
        \/ (exists read write, isGet read = true /\ isUpdateStatus write = true
                               /\ calls = [read; write])).
Proof.
  unfold updateStatusOnce.
  cbn [kcclient.Get kcclient.UpdateStatus fake.clientset].
  destruct (get_cases (Namespace (pkgrModel a)) (Name (pkgrModel a)) (appClient a))
    as (Hread & _).
  destruct (fake.get _ _ _) as [[err|existing] c]; cbn [fst snd] in *.
  - eexists. split; [exact Hread|]. left. eexists. split; [|reflexivity]. reflexivity.
  - unfold fake.updateStatus.
    match goal with
    | |- context [fake.Invokes ?action (fake.replace ?ns ?object) c] =>
        destruct (replace_cases action ns object c) as (Hwrite & _);
        destruct (fake.Invokes action (fake.replace ns object) c)
          as [[err'|written] c']
    end; cbn [fst snd] in *;
      (eexists; split;
       [cbn; rewrite Hwrite, Hread, <- app_assoc; reflexivity
       |right; do 2 eexists; split; [|split]; [| |reflexivity]; reflexivity]).
Qed.

Lemma updateStatus_loop_calls (remaining : nat) (lastErr : option go.error)
    (a : CRDApp fake.Clientset) :
  exists calls,
    fake.actions (appClient (snd (updateStatus_loop remaining lastErr a)))
    = (fake.actions (appClient a) ++ calls)%list
    /\ (length (List.filter isGet calls) <= remaining)%nat
    /\ (length (List.filter isUpdateStatus calls) <= length (List.filter isGet calls))%nat
    /\ List.filter isUpdate calls = []
    /\ (remaining ≠ 0%nat -> calls ≠ []).
Proof.
  revert lastErr a. induction remaining as [|remaining IH]; intros lastErr a.
  - exists []. cbn. rewrite app_nil_r. repeat split; try done; lia.
  - rewrite updateStatus_loop_S.
    destruct (updateStatusOnce_calls a) as (calls & Hcalls & Hshape).
    assert ((length (List.filter isGet calls) = 1)%nat
            /\ (length (List.filter isUpdateStatus calls) <= 1)%nat
            /\ List.filter isUpdate calls = [] /\ calls ≠ []) as (Hreads & Hwrites & Hnone & Hsome).
    { destruct Hshape as [(read & Hread & ->) | (read & write & Hread & Hwrite & ->)].
      - destruct read; try discriminate. cbn. repeat split; try done; lia.
      - destruct read; try discriminate. destruct write; try discriminate.
        cbn. repeat split; try done; lia. }
    destruct (updateStatusOnce a) as [[err|] a']; cbn [fst snd] in *.
    + destruct (IH (Some err) a') as (more & Hmore & Hr & Hw & Hn & _).
      exists (calls ++ more)%list.
      rewrite Hmore, Hcalls, <- app_assoc, !List.filter_app, !length_app, Hnone, Hn.
      repeat split; try done; try lia.
      intros _. destruct calls; [done|discriminate].
    + exists calls. repeat split; try done; lia.
Qed.

(** X18.  The calls of the hooks, whatever the store holds and answers.
    [blockDeletion] makes no call, or a read, or a read followed by an
    update; [unblockDeletion] the same, with at least the read;
    [updateStatus] makes between one and five reads, at most one write of
    the status per read, and never an update of the whole object. *)
Theorem X18_calls_of_the_hooks (desc : string) (a : CRDApp fake.Clientset) :
  (let calls := callsSince (appClient a) (appClient (snd (blockDeletion a))) in
   calls = []
   \/ (exists read, isGet read = true /\ calls = [read])
   \/ (exists read write, isGet read = true /\ isUpdate write = true
                          /\ calls = [read; write]))
  /\ (let calls := callsSince (appClient a) (appClient (snd (unblockDeletion a))) in
      (exists read, isGet read = true /\ calls = [read])
      \/ (exists read write, isGet read = true /\ isUpdate write = true
                             /\ calls = [read; write]))
  /\ (let calls := callsSince (appClient a) (appClient (snd (updateStatus desc a))) in
      (1 <= length (List.filter isGet calls) <= 5)%nat
      /\ (length (List.filter isUpdateStatus calls)
          <= length (List.filter isGet calls))%nat
      /\ List.filter isUpdate calls = []).
Proof.
  split; [|split]; cbn zeta.
  - unfold blockDeletion. destruct (containsString _ _).
    + left. unfold callsSince. cbn. apply drop_all.
    + right.
      match goal with
      | |- context [updatePackageRepository ?f ?b] =>
          destruct (updatePackageRepository_calls f b) as (calls & Hcalls & Hshape)
      end.
      by rewrite (callsSince_app (appClient a) _ calls Hcalls).
  - unfold unblockDeletion.
    match goal with
    | |- context [updatePackageRepository ?f ?b] =>
        destruct (updatePackageRepository_calls f b) as (calls & Hcalls & Hshape)
    end.
    by rewrite (callsSince_app (appClient a) _ calls Hcalls).
  - unfold updateStatus.
    match goal with
    | |- context [updateStatus_loop 5 None ?b] =>
        destruct (updateStatus_loop_calls 5 None b)
          as (calls & Hcalls & Hreads & Hwrites & Hnone & Hsome)
    end.
    rewrite (callsSince_app (appClient a) _ calls Hcalls). repeat split; try done.
    destruct (List.filter isGet calls) eqn:Hget; cbn; [|lia].
    cbn in Hwrites.
    destruct calls as [|call rest]; [by destruct Hsome|].
    destruct call; cbn in *; try discriminate; lia.
Qed.

End hook_calls.

(** ** [indentMessageBlock] *)

Section strings_facts.
Import gostrings.

Lemma append_cons (x : ascii) (a b : string) :
  String x a +:+ b = String x (a +:+ b).
Proof. reflexivity. Qed.

Lemma append_nil_l (b : string) : EmptyString +:+ b = b.
Proof. reflexivity. Qed.

Lemma append_assoc (a b c : string) : (a +:+ b) +:+ c = a +:+ (b +:+ c).
Proof.
  induction a as [|x a IH]; [done|]. rewrite !append_cons. by rewrite IH.
Qed.

Lemma append_nil_r (a : string) : a +:+ EmptyString = a.
Proof. induction a as [|x a IH]; [done|]. rewrite append_cons. by rewrite IH. Qed.

Lemma last_append (a b : string) :
  last (a +:+ b) = match b with EmptyString => last a | _ => last b end.
Proof.
  induction a as [|x a IH]; [by destruct b|].
  rewrite append_cons. cbn [last]. rewrite IH.
  destruct a as [|y a]; [by destruct b|].
  rewrite append_cons. by destruct b.
Qed.

Lemma last_None (s : string) : last s = None -> s = EmptyString.
Proof.
  induction s as [|x s IH]; [done|]. cbn [last].
  destruct s; [discriminate|]. intros Hlast. by specialize (IH Hlast).
Qed.

Lemma last_Some (s : string) (c : ascii) :
  last s = Some c -> exists body, s = body +:+ String c EmptyString.
Proof.
  induction s as [|x s IH]; cbn; [discriminate|].
  destruct s as [|y s].
  - intros [= ->]. by exists EmptyString.
  - intros Hlast. destruct (IH Hlast) as [body Hbody]. exists (String x body).
    by rewrite append_cons, <- Hbody.
Qed.

Lemma LastIndex_bounds (s : string) (sep : ascii) :
  -1 <= LastIndex s sep < len s.
Proof.
  unfold len. induction s as [|x s IH]; cbn [LastIndex String.length]; [lia|].
  destruct (Z.leb_spec 0 (LastIndex s sep)); [lia|].
  destruct (Ascii.eqb x sep); lia.
Qed.

Lemma last_LastIndex (s : string) (sep : ascii) :
  last s = Some sep -> LastIndex s sep = len s - 1.
Proof.
  unfold len. induction s as [|x s IH]; [discriminate|].
  cbn [LastIndex String.length]. destruct s as [|y s].
  - cbn. intros [= ->]. by rewrite Ascii.eqb_refl.
  - intros Hlast. rewrite (IH Hlast).
    destruct (Z.leb_spec 0 (Z.of_nat (String.length (String y s)) - 1));
      cbn [String.length] in *; lia.
Qed.

(** The test of [indentMessageBlock]: the last index of the newline is
    the last index of the string exactly when the string is empty or
    ends with a newline. *)
Lemma LastIndex_is_last (s : string) (sep : ascii) :
  LastIndex s sep = len s - 1 <-> s = EmptyString \/ last s = Some sep.
Proof.
  split; [|intros [->|Hlast]; [done|by apply last_LastIndex]].
  unfold len. induction s as [|x s IH]; [by left|]. right.
  cbn [LastIndex String.length] in *.
  pose proof (LastIndex_bounds s sep) as Hbounds. unfold len in Hbounds.
  destruct (Z.leb_spec 0 (LastIndex s sep)) as [Hin|Hout].
  - destruct IH as [->|Hlast]; [lia|cbn in Hin; lia|].
    destruct s; [discriminate|done].
  - destruct (Ascii.eqb_spec x sep) as [->|]; [|lia].
    destruct s; cbn [String.length] in *; [done|lia].
Qed.

Lemma Split_not_nil (s : string) (sep : ascii) : Split s sep ≠ [].
Proof.
  destruct s as [|x s]; cbn; [done|].
  destruct (Ascii.eqb x sep); [done|]. by destruct (Split s sep).
Qed.

(** No piece of a split ends with the separator. *)
Lemma Split_pieces (s : string) (sep : ascii) :
  Forall (fun piece => last piece ≠ Some sep) (Split s sep).
Proof.
  induction s as [|x s IH]; cbn; [by repeat constructor|].
  destruct (Ascii.eqb_spec x sep) as [->|Hx]; [by constructor|].
  pose proof (Split_not_nil s sep) as Hsome.
  destruct (Split s sep) as [|piece pieces]; [done|].
  inversion IH as [|? ? Hpiece Hpieces]; subst. constructor; [|done].
  destruct piece; cbn; [congruence|done].
Qed.

Lemma Split_append (a b : string) (sep : ascii) :
  Split (a +:+ String sep b) sep = (Split a sep ++ Split b sep)%list.
Proof.
  induction a as [|x a IH].
  - rewrite append_nil_l. cbn. by rewrite Ascii.eqb_refl.
  - rewrite append_cons. cbn [Split]. rewrite IH.
    destruct (Ascii.eqb x sep); [done|].
    pose proof (Split_not_nil a sep). by destruct (Split a sep).
Qed.

End strings_facts.

Section indentMessageBlock_facts.
Import app gostrings blocks.
Context {painters : Color}.

Lemma indented_cons (piece : string) (pieces : list string) :
  indented (piece :: pieces)
  = margin +:+ piece +:+ String newline (indented pieces).
Proof. reflexivity. Qed.

Lemma indented_app (pieces pieces' : list string) :
  indented (pieces ++ pieces') = indented pieces +:+ indented pieces'.
Proof.
  induction pieces as [|piece pieces IH]; [done|].
  rewrite <- app_comm_cons, !indented_cons, IH.
  by rewrite !append_assoc, append_cons.
Qed.

Lemma Join_margins (paint : string -> string) (pieces : list string) :
  pieces ≠ [] ->
  Join (List.map (fun line => margin +:+ paint line) pieces) (String newline EmptyString)
    +:+ String newline EmptyString
  = indented (List.map paint pieces).
Proof.
  induction pieces as [|piece pieces IH]; [done|]. intros _.
  destruct pieces as [|piece' pieces].
  - cbn [List.map Join indented fold_right]. by rewrite !append_assoc.
  - specialize (IH ltac:(done)).
    change (indented (List.map paint (piece :: piece' :: pieces)))
      with (margin +:+ paint piece
            +:+ String newline (indented (List.map paint (piece' :: pieces)))).
    rewrite <- IH.
    change (Join (List.map (fun line => margin +:+ paint line) (piece :: piece' :: pieces))
              (String newline EmptyString))
      with ((margin +:+ paint piece) +:+ String newline EmptyString
            +:+ Join (List.map (fun line => margin +:+ paint line) (piece' :: pieces))
                  (String newline EmptyString)).
    by rewrite !append_assoc, !append_cons, !append_nil_l.
Qed.

Lemma last_Join_margins (paint : string -> string) (pieces : list string) :
  pieces ≠ [] ->
  exists piece,
    In piece pieces
    /\ last (Join (List.map (fun line => margin +:+ paint line) pieces)
               (String newline EmptyString))
       = last (margin +:+ paint piece).
Proof.
  induction pieces as [|piece pieces IH]; [done|]. intros _.
  destruct pieces as [|piece' pieces].
  - exists piece. split; [by left|done].
  - destruct (IH ltac:(done)) as (found & Hin & Hlast).
    exists found. split; [by right|]. rewrite <- Hlast.
    change (Join (List.map (fun line => margin +:+ paint line) (piece :: piece' :: pieces))
              (String newline EmptyString))
      with ((margin +:+ paint piece)
            +:+ String newline
                  (Join (List.map (fun line => margin +:+ paint line) (piece' :: pieces))
                     (String newline EmptyString))).
    rewrite last_append. cbn [last].
    destruct (Join _ _) eqn:Hjoin; [|done].
    exfalso. destruct pieces; cbn in Hjoin; discriminate.
Qed.

Lemma indentMessageBlock_plain (messageBlock : string) :
  indentMessageBlock messageBlock false = indented (Split messageBlock newline).
Proof.
  unfold indentMessageBlock.
  pose proof (Split_not_nil messageBlock newline) as Hpieces.
  pose proof (Split_pieces messageBlock newline) as Hlasts.
  set (pieces := Split messageBlock newline) in *.
  destruct (last_Join_margins (fun line => line) pieces Hpieces)
    as (piece & Hin & Hlast).
  assert (LastIndex (Join (List.map (fun line => margin +:+ line) pieces)
                       (String newline EmptyString)) newline
          ≠ len (Join (List.map (fun line => margin +:+ line) pieces)
                   (String newline EmptyString)) - 1) as Htest.
  { rewrite LastIndex_is_last. intros [Hempty | Hnewline].
    - rewrite Hempty in Hlast. symmetry in Hlast. apply last_None in Hlast.
      destruct piece; discriminate.
    - rewrite Hlast, last_append in Hnewline.
      rewrite List.Forall_forall in Hlasts. specialize (Hlasts piece Hin).
      destruct piece; [discriminate|done]. }
  apply Z.eqb_neq in Htest. rewrite Htest. cbn [negb].
  rewrite (Join_margins (fun line => line) pieces Hpieces).
  by rewrite List.map_id.
Qed.

(** X19.  A block that is not an error block comes out line by line:
    each line of the input, an empty last line after a final newline
    included, behind the margin and closed by a newline. *)
Theorem X19_indentMessageBlock_lines (messageBlock : string) :
  indentMessageBlock messageBlock false = indented (Split messageBlock newline).
Proof. exact (indentMessageBlock_plain messageBlock). Qed.

(** X20.  Without error marking, indenting two blocks joined by a
    newline is indenting the one and then the other. *)
Theorem X20_indentMessageBlock_distributes (first second : string) :
  indentMessageBlock (first +:+ String newline second) false
  = indentMessageBlock first false +:+ indentMessageBlock second false.
Proof.
  rewrite !indentMessageBlock_plain, Split_append. apply indented_app.
Qed.

(** X21.  Whatever the block and the painter, the result of
    [indentMessageBlock] ends with a newline, also when the block is
    empty. *)
Theorem X21_indentMessageBlock_ends_with_newline (messageBlock : string)
    (errored : bool) :
  exists body,
    indentMessageBlock messageBlock errored = body +:+ String newline EmptyString.
Proof.
  unfold indentMessageBlock.
  pose proof (Split_not_nil messageBlock newline) as Hpieces.
  set (pieces := Split messageBlock newline) in *.
  set (paint := fun line => if errored then RedString line else line).
  change (List.map _ pieces) with (List.map (fun line => margin +:+ paint line) pieces).
  destruct (last_Join_margins paint pieces Hpieces) as (piece & _ & Hlast).
  set (joined := Join _ _) in *.
  destruct (Z.eqb_spec (LastIndex joined newline) (len joined - 1)) as [Hends|_];
    cbn [negb]; [|by eexists].
  apply LastIndex_is_last in Hends as [Hempty | Hnewline].
  - rewrite Hempty in Hlast. symmetry in Hlast. apply last_None in Hlast.
    destruct (paint piece); discriminate.
  - by apply last_Some.
Qed.

End indentMessageBlock_facts.

(** ** Runs of the hooks on concrete stores *)

Section hook_runs.
Import pkgingv1alpha1 pkgrepository persisted cluster cluster2.

(** X13 (witness): five simulated conflicts leave the store as it was,
    four of them followed by a write that is accepted leave the status
    replaced. *)
Lemma X13_updateStatus_is_all_or_nothing_witness :
  fake.tracker (appClient (snd (updateStatus "Reconcile succeeded"
                                  (adapter lists.foreign (conflicts 5)))))
  = fake.tracker (appClient (adapter lists.foreign (conflicts 5)))
  /\ fake.tracker (appClient (snd (updateStatus "Reconcile succeeded"
                                     (adapter lists.foreign (conflicts 4)))))
     = <[("carvel", "tanzu-core")
         := withStatus (repository lists.foreign)
              (statusOf (engine.statusAfter [engine.Succeeded]))]>
         (fake.tracker (appClient (adapter lists.foreign (conflicts 4)))).
Proof.
  destruct (X13_updateStatus_is_all_or_nothing "Reconcile succeeded"
              (adapter lists.foreign (conflicts 5)) (repository lists.foreign))
    as (_ & failed).
  { unfold holds. vm_compute. repeat split; reflexivity. }
  destruct (X13_updateStatus_is_all_or_nothing "Reconcile succeeded"
              (adapter lists.foreign (conflicts 4)) (repository lists.foreign))
    as (written & _).
  { unfold holds. vm_compute. repeat split; reflexivity. }
  split.
  - apply failed. vm_compute. discriminate.
  - apply written. vm_compute. reflexivity.
Defined.

(** X14 (witness): a second repository in the same namespace. *)
Lemma X14_hooks_leave_other_resources_alone_witness :
  fake.tracker (appClient (snd (@blockDeletion _ _ finalizers (shared []))))
    !! ("carvel", "tanzu-extras")
  = Some neighbour
  /\ fake.tracker (appClient (snd (@unblockDeletion _ _ finalizers (shared []))))
       !! ("carvel", "tanzu-extras")
     = Some neighbour
  /\ fake.tracker (appClient (snd (updateStatus "Reconcile succeeded" (shared []))))
       !! ("carvel", "tanzu-extras")
     = Some neighbour.
Proof.
  destruct (X14_hooks_leave_other_resources_alone (names := finalizers)
              "Reconcile succeeded" (shared []) ("carvel", "tanzu-extras"))
    as (blocked & unblocked & updated).
  { right. exists (repository lists.foreign).
    unfold holds. vm_compute. repeat split; reflexivity. }
  { vm_compute. discriminate. }
  rewrite blocked, unblocked, updated. vm_compute. repeat split; reflexivity.
Defined.

(** X15 (witness): an adapter for a resource that was never stored. *)
Lemma X15_hooks_on_a_missing_resource_witness :
  fst (@unblockDeletion _ _ finalizers orphan)
  = Some (go.Errorf1 "Updating PackageRepository: %s" fake.NotFound)
  /\ fst (updateStatus "Reconcile succeeded" orphan)
     = Some (go.Errorf1 "Fetching PackageRepository: %s" fake.NotFound)
  /\ callsSince (appClient orphan)
       (appClient (snd (updateStatus "Reconcile succeeded" orphan)))
     = replicate 5 (fake.GetAction "carvel" "tanzu-core").
Proof.
  destruct (X15_hooks_on_a_missing_resource (names := finalizers)
              "Reconcile succeeded" orphan)
    as (_ & unblocked & _ & updated & reads).
  { unfold missing. vm_compute. reflexivity. }
  { reflexivity. }
  repeat split; assumption.
Defined.

(** X16 (witness): a resource that holds a finalizer of another
    controller only. *)
Lemma X16_unblockDeletion_undoes_blockDeletion_witness :
  exists repo',
    stored (snd (@unblockDeletion _ _ finalizers
                   (snd (@blockDeletion _ _ finalizers (adapter lists.foreign [])))))
           repo'
    /\ Finalizers repo' = lists.foreign.
Proof.
  destruct (X16_unblockDeletion_undoes_blockDeletion (names := finalizers)
              (adapter lists.foreign []) (repository lists.foreign))
    as ((_ & _ & repo' & Hstored & _ & Hsame) & _).
  { unfold stored. vm_compute. repeat split; reflexivity. }
  exists repo'. split; [exact Hstored|].
  apply Hsame; vm_compute; intros [Heq|[]]; discriminate Heq.
Defined.

(** X17 (witness): an adapter built from a resource that holds the
    finalizer. *)
Lemma X17_blockDeletion_trusts_the_adapters_copy_witness :
  exists repo',
    stored (snd (@unblockDeletion _ _ finalizers (adapter [lists.current] []))) repo'
    /\ ~ In lists.current (Finalizers repo').
Proof.
  destruct (X17_blockDeletion_trusts_the_adapters_copy (names := finalizers)
              (adapter [lists.current] []) (repository [lists.current]))
    as (_ & _ & found).
  { vm_compute. reflexivity. }
  { unfold stored. vm_compute. repeat split; reflexivity. }
  exact found.
Defined.

End hook_runs.
